(** * iot-433mhz: the RF code association and notification engine

    A shallow embedding of [index.js] (the listeners wired in the [server]
    step and the SIGINT handler) and of the transport class of
    [components/platform.js].

    JavaScript runs these listeners on one event loop.  A listener is
    modelled as a function from the value it receives and the state of the
    outside world to the list of effects it performs, in the order in which
    they happen, and the new state of the world.  Calls into the
    collaborators that are not part of these two files (dbFunctions, the nedb
    datastore, fs, the serial port, socket.io, the notification module) are
    recorded as effects; what a collaborator answers is read from the world
    through the interface [Collaborators]. *)

From Stdlib Require Import List String Ascii ZArith Bool Lia.
From Stdlib Require QArith_base.
Import ListNotations.
Open Scope string_scope.
Open Scope list_scope.

Set Warnings "-register-all".

(** ** Values *)

(** What [JSON.parse] returns.  RF codes are integers, so numbers are [Z]. *)
Inductive json : Type :=
| JNull
| JBool (b : bool)
| JNum (n : Z)
| JStr (s : string)
| JArr (items : list json)
| JObj (fields : list (string * json)).

(** A JavaScript value that may be [undefined] ([None]). *)
Definition value := option json.

(** The value of an RF code as the stores and the cards keep it. *)
Inductive Code : Type :=
| CNum (n : Z)
| CStr (s : string).

Definition Code_eqb (a b : Code) : bool :=
  match a, b with
  | CNum x, CNum y => Z.eqb x y
  | CStr x, CStr y => String.eqb x y
  | _, _ => false
  end.

(** Errors are carried as their message. *)
Definition Err := string.

(** The result of evaluating an expression: a value or a thrown exception. *)
Inductive completion (A : Type) : Type :=
| Normal (a : A)
| Throw (e : Err).
Arguments Normal {A} a.
Arguments Throw {A} e.

(** A settled promise. *)
Inductive settled (A : Type) : Type :=
| Resolved (a : A)
| Rejected (e : Err).
Arguments Resolved {A} a.
Arguments Rejected {A} e.

Fixpoint assoc (k : string) (fields : list (string * json)) : value :=
  match fields with
  | [] => None
  | (k', v) :: rest => if String.eqb k k' then Some v else assoc k rest
  end.

(** [v.k] for the two property names the engine reads, [status] and [code]:
    reading a property of [null] throws a TypeError, an object answers with
    its field, and numbers, booleans, strings and arrays have no such
    property. *)
Definition prop (v : json) (k : string) : completion value :=
  match v with
  | JNull => Throw "TypeError: Cannot read property of null"
  | JObj fields => Normal (assoc k fields)
  | _ => Normal None
  end.

(** [x === 'received'] *)
Definition is_received (x : value) : bool :=
  match x with
  | Some (JStr s) => String.eqb s "received"
  | _ => false
  end.

(** ** Cards *)

(** [card.device]; a field a card does not have is [undefined] ([None]),
    [armed] is read for its truth value.  Every card has a [device] object,
    and its [img], when it has one, is a string. *)
Record Device : Type := mkDevice {
  on_code : option Code;
  off_code : option Code;
  trigger_code : option Code;
  armed : bool
}.

Record Card : Type := mkCard {
  shortname : string;
  type : string;
  device : Device;
  img : option string
}.

(** What [dbFunctions.isCodeAvailable] resolves with. *)
Record Availability : Type := mkAvailability {
  isAvailable : bool;
  assignedTo : option string
}.

(** A nedb query on the RFCODES collection: [{code: c}] or [{$or: [...]}]. *)
Inductive query : Type :=
| QCode (c : option Code)
| QOr (alternatives : list query).

(** ** Effects *)

(** The pieces of a console line: the arguments of [console.log], or the
    operands of the [+] that builds its message, left to right. *)
Inductive logval : Type :=
| LS (s : string)
| LJ (v : json)
| LB (b : bool)
| LName (n : option string)
| LCount (n : option nat)
| LErr (e : option Err)
| LPath (e : Err) (* [e.path], the path property of the error object *).

Inductive payload : Type :=
| PCode (codeData : json)
| PCard (card : Card).

Inductive effect : Type :=
| ConsoleLog (args : list logval)
| ConsoleError (args : list logval)
| PutCodeInDB (codeData : json)
| IsCodeAvailable (code : value)
| AlarmTriggered (card_shortname : option string) (type_filter : string)
| IoEmit (event : string) (p : payload)
| AlarmAdviseAll (card : Card)
| WebHookCodeDetected (codeData : json)
| RfcodesRemove (q : query) (multi : bool)
| FsUnlink (dir file : string)
| AsyncEmitInitCards
| SerialClose
| ProcessExit.

Definition trace := list effect.

(** ** The collaborators

    [W] is the state of everything outside the two source files: the three
    datastores, the file system, the serial port.  A promise-returning
    function is given by how its promise settles. *)
Class Collaborators (W : Type) : Type := {
  putCodeInDB : json -> W -> settled string * W;
  isCodeAvailable : value -> W -> settled Availability * W;
  alarmTriggered : option string -> string -> W -> settled (option Card) * W;
  (* db.RFCODES.remove(query, {multi}, function (err, numRemoved)) *)
  RFCODES_remove : query -> bool -> W -> (option Err * option nat) * W;
  (* fs.unlink(path.resolve(dir, file), function (err)) *)
  fs_unlink : string -> string -> W -> option Err * W;
  (* serial.close(function (err)) *)
  serial_close : W -> option Err * W
}.

(** What one run of a listener did: the effects of its synchronous part, the
    exception that part threw if any, the effects of the continuations that
    ran afterwards, and the world it leaves. *)
Record run (W : Type) : Type := mkRun {
  sync : trace;
  thrown : option Err;
  later : trace;
  world : W
}.
Arguments mkRun {W} sync thrown later world.
Arguments sync {W} r.
Arguments thrown {W} r.
Arguments later {W} r.
Arguments world {W} r.

Definition effects {W} (r : run W) : trace := sync r ++ later r.

(** ** components/platform.js *)

Inductive transport : Type := rpi | arduino.

(** [type = (board.platform == 'rpi' && !config.platforms.rpi['use-external-arduino']) ? 'rpi' : 'arduino'] *)
Definition transport_type (platform : string) (use_external_arduino : bool) : transport :=
  if String.eqb platform "rpi" && negb use_external_arduino then rpi else arduino.

Section Engine.

Context {W : Type} {collab : Collaborators W}.

(** [config.DEBUG] *)
Variable DEBUG : bool.

(** [JSON.parse]: [None] when it throws a SyntaxError. *)
Variable JSON_parse : string -> option json.

Definition debug (args : list logval) : trace :=
  if DEBUG then [ConsoleLog args] else [].

(** [this.on = function(callback)]: the listener it registers on the
    sniffer ('codes') or on the serial port ('data'). *)
Definition rf433mhz_on (t : transport) (callback : json -> W -> run W)
    (data : string) (w : W) : trace * W :=
  match t with
  | rpi => ([], w)
  | arduino =>
      match JSON_parse data with
      | None => ([ConsoleLog [LS "Error parsing this JSON: "; LS data]], w)
      | Some v =>
          let r := callback v w in
          match thrown r with
          | None => (sync r ++ later r, world r)
          | Some _ =>
              (sync r ++ [ConsoleLog [LS "Error parsing this JSON: "; LS data]]
                 ++ later r, world r)
          end
      end
  end.

(** [this.close = function(callback)] *)
Definition rf433mhz_close (t : transport) (callback : option Err -> trace)
    (w : W) : trace * W :=
  match t with
  | arduino =>
      let (err, w') := serial_close w in
      (SerialClose :: callback err, w')
  | rpi => ([], w)
  end.

(** ** index.js *)

(** The continuation of [dbFunctions.alarmTriggered(card_shortname, 'alarm')]. *)
Definition alarm_then (r : settled (option Card)) : trace :=
  match r with
  | Resolved (Some card) =>
      IoEmit "uiTriggerAlarm" (PCard card)
        :: (if armed (device card) then [AlarmAdviseAll card] else [])
  | Resolved None => []
  | Rejected err => [ConsoleError [LErr (Some err)]]
  end.

(** The continuation of [dbFunctions.isCodeAvailable(codeData.code)]. *)
Definition available_then (codeData : json) (result : Availability) (w : W)
    : trace * W :=
  let announce :=
    debug [LS "code available: "; LB (isAvailable result);
           LS " assigned to: "; LName (assignedTo result)] in
  if isAvailable result then
    (announce ++ [IoEmit "newRFCode" (PCode codeData);
                  WebHookCodeDetected codeData], w)
  else
    let card_shortname := assignedTo result in
    let (r, w') := alarmTriggered card_shortname "alarm" w in
    (announce ++ [AlarmTriggered card_shortname "alarm";
                  WebHookCodeDetected codeData] ++ alarm_then r, w').

(** The continuation of [dbFunctions.putCodeInDB(codeData)].  An exception
    in it rejects the promise [then] returned, which nobody listens to. *)
Definition stored_then (codeData : json) (mex : string) (w : W) : trace * W :=
  match prop codeData "code" with
  | Throw _ => (debug [LS mex], w)
  | Normal code =>
      let (r, w') := isCodeAvailable code w in
      match r with
      | Resolved result =>
          let (t, w'') := available_then codeData result w' in
          (debug [LS mex] ++ IsCodeAvailable code :: t, w'')
      | Rejected err =>
          (debug [LS mex]
             ++ [IsCodeAvailable code; ConsoleError [LErr (Some err)]], w')
      end
  end.

(** The listener given to [rf433mhz.on]. *)
Definition on_codeData (codeData : json) (w : W) : run W :=
  let seen := debug [LS "RFcode received: "; LJ codeData] in
  match prop codeData "status" with
  | Throw e => mkRun seen (Some e) [] w
  | Normal status =>
      if is_received status then
        let (r, w') := putCodeInDB codeData w in
        match r with
        | Resolved mex =>
            let (t, w'') := stored_then codeData mex w' in
            mkRun (seen ++ [PutCodeInDB codeData]) None t w''
        | Rejected err =>
            mkRun (seen ++ [PutCodeInDB codeData]) None
                  [ConsoleError [LErr (Some err)]] w'
        end
      else mkRun seen None [] w
  end.

(** [db.CARDS.on('inserted', function(card))] *)
Definition CARDS_on_inserted (card : Card) (w : W) : run W :=
  mkRun [AsyncEmitInitCards] None [] w.

(** The query built in the 'removed' listener; [None] is [undefined]. *)
Definition codes_to_remove (card : Card) : option query :=
  if String.eqb (type card) "switch" then
    Some (QOr [QCode (on_code (device card)); QCode (off_code (device card))])
  else if String.eqb (type card) "alarm" then
    Some (QCode (trigger_code (device card)))
  else None.

(** [if (card.img)]: a string is true unless it is empty. *)
Definition img_file (card : Card) : option string :=
  match img card with
  | Some "" => None
  | other => other
  end.

(** The callback of [db.RFCODES.remove]. *)
Definition removed_callback (err : option Err) (numRemoved : option nat) : trace :=
  match err with
  | Some e => [ConsoleLog [LErr (Some e)]]
  | None => []
  end ++ [ConsoleLog [LCount numRemoved; LS " code/s deleted."]].

(** The callback of [fs.unlink]: it prints [err.path]. *)
Definition unlink_callback (err : option Err) : trace :=
  match err with
  | Some e => [ConsoleError [LS "DeleteFile: file not found"; LPath e]]
  | None => []
  end.

(** [db.RFCODES.remove(codes_to_remove, {multi: true}, ...)] taking effect in
    world [w]: what its callback prints and the world it leaves. *)
Definition remove_codes (card : Card) (w : W) : trace * W :=
  match codes_to_remove card with
  | Some q =>
      let '((err, numRemoved), w') := RFCODES_remove q true w in
      (removed_callback err numRemoved, w')
  | None => ([], w)
  end.

(** [fs.unlink(path.resolve('./www/', card.img), ...)] taking effect in world
    [w]: what its callback prints and the world it leaves. *)
Definition delete_img (card : Card) (w : W) : trace * W :=
  match img_file card with
  | Some file =>
      let (err, w') := fs_unlink "./www/" file w in
      (unlink_callback err, w')
  | None => ([], w)
  end.

(** The 'removed' listener starts the removal of the codes and the deletion
    of the image one after the other and returns; which of the two takes
    effect and calls back first is up to the event loop. *)
Inductive schedule : Type := remove_answers_first | unlink_answers_first.

(** [db.CARDS.on('removed', function(card))], under the order [order] of the
    two callbacks. *)
Definition CARDS_on_removed (order : schedule) (card : Card) (w : W) : run W :=
  let calls :=
    match codes_to_remove card with
    | Some q => [RfcodesRemove q true]
    | None => []
    end
    ++ match img_file card with
       | Some file => [FsUnlink "./www/" file]
       | None => []
       end
    ++ [ConsoleLog [LS "Card "; LS (shortname card); LS " deleted."];
        AsyncEmitInitCards] in
  match order with
  | remove_answers_first =>
      let (remove_done, w1) := remove_codes card w in
      let (unlink_done, w2) := delete_img card w1 in
      mkRun calls None (remove_done ++ unlink_done) w2
  | unlink_answers_first =>
      let (unlink_done, w1) := delete_img card w in
      let (remove_done, w2) := remove_codes card w1 in
      mkRun calls None (unlink_done ++ remove_done) w2
  end.

(** [process.on('SIGINT', function())]; [rf] is the variable [rf433mhz],
    [None] while it is still [undefined]. *)
Definition on_SIGINT (rf : option transport) (w : W) : trace * W :=
  match rf with
  | Some t =>
      let (t', w') :=
        rf433mhz_close t
          (fun err =>
             [match err with
              | Some e => ConsoleError [LS "Error: "; LErr (Some e)]
              | None => ConsoleLog [LS "Serial Port closed."]
              end; ProcessExit]) w in
      (ConsoleLog [LS "Closing..."] :: t', w')
  | None => ([ConsoleLog [LS "Closing..."]; ProcessExit], w)
  end.

(** The events of the transport, one after the other, each handled to the
    end by [listener] before the next. *)
Fixpoint deliver (listener : string -> W -> trace * W) (events : list string)
    (w : W) : trace * W :=
  match events with
  | [] => ([], w)
  | data :: rest =>
      let (t, w') := listener data w in
      let (t', w'') := deliver listener rest w' in
      (t ++ t', w'')
  end.

(** The engine listening on transport [t]: [rf433mhz.on(on_codeData)]. *)
Definition engine (t : transport) : string -> W -> trace * W :=
  rf433mhz_on t on_codeData.

End Engine.

(** ** Reading a run *)

(** [codeData.status === 'received'], false when reading the status throws. *)
Definition received (codeData : json) : bool :=
  match prop codeData "status" with
  | Normal status => is_received status
  | Throw _ => false
  end.

(** [codeData.code] of an event that passed the status test. *)
Definition code_of (codeData : json) : value :=
  match prop codeData "code" with
  | Normal code => code
  | Throw _ => None
  end.

Definition is_code_detected (e : effect) : bool :=
  match e with WebHookCodeDetected _ => true | _ => false end.

Definition is_alarm_advise (e : effect) : bool :=
  match e with AlarmAdviseAll _ => true | _ => false end.

Definition is_emit (e : effect) : bool :=
  match e with IoEmit _ _ => true | _ => false end.

Definition is_availability (e : effect) : bool :=
  match e with IsCodeAvailable _ => true | _ => false end.

Definition is_alarm_lookup (e : effect) : bool :=
  match e with AlarmTriggered _ _ => true | _ => false end.

Definition is_console (e : effect) : bool :=
  match e with ConsoleLog _ | ConsoleError _ => true | _ => false end.

Definition is_cards_changed (e : effect) : bool :=
  match e with AsyncEmitInitCards => true | _ => false end.

Definition is_remove (e : effect) : bool :=
  match e with RfcodesRemove _ _ => true | _ => false end.

Section Reading.

Context {W : Type} {collab : Collaborators W}.
Variable DEBUG : bool.

(** What the listener has done when the availability answer arrives. *)
Definition upto_resolved (codeData : json) (mex : string) (result : Availability)
    : trace :=
  debug DEBUG [LS "RFcode received: "; LJ codeData]
    ++ [PutCodeInDB codeData]
    ++ debug DEBUG [LS mex]
    ++ [IsCodeAvailable (code_of codeData)]
    ++ debug DEBUG [LS "code available: "; LB (isAvailable result);
                    LS " assigned to: "; LName (assignedTo result)].

(** The calls the 'removed' listener makes before it returns. *)
Definition removal_calls (card : Card) : trace :=
  match codes_to_remove card with
  | Some q => [RfcodesRemove q true]
  | None => []
  end
  ++ match img_file card with
     | Some file => [FsUnlink "./www/" file]
     | None => []
     end.

(** The world in which the removal of the codes takes effect. *)
Definition world_at_remove (order : schedule) (card : Card) (w : W) : W :=
  match order with
  | remove_answers_first => w
  | unlink_answers_first => snd (delete_img card w)
  end.

(** The world in which the deletion of the image takes effect. *)
Definition world_at_unlink (order : schedule) (card : Card) (w : W) : W :=
  match order with
  | remove_answers_first => snd (remove_codes card w)
  | unlink_answers_first => w
  end.

(** What the datastore's callback prints. *)
Definition cascade_report (order : schedule) (card : Card) (w : W) : trace :=
  fst (remove_codes card (world_at_remove order card w)).

(** What the callback of [fs.unlink] prints. *)
Definition unlink_report (order : schedule) (card : Card) (w : W) : trace :=
  fst (delete_img card (world_at_unlink order card w)).

(** The two reports in the order the callbacks run. *)
Definition reports (order : schedule) (card : Card) (w : W) : trace :=
  match order with
  | remove_answers_first => cascade_report order card w ++ unlink_report order card w
  | unlink_answers_first => unlink_report order card w ++ cascade_report order card w
  end.

End Reading.

(** ** A model of the collaborators

    [components/dbFunctions.js], the evented nedb datastore, the file system
    and the serial port are outside the two source files.  The theorems below
    hold for every implementation of [Collaborators]; this module gives one,
    written after the specification, on which the listeners can be run. *)
Module SpecModel.

(** Modelled from the spec: the RFCode record of the CodeStore (section 3);
    the datastore that holds it is not among the source files. *)
Record RFCode : Type := mkRFCode {
  code : Code;
  firstSeenAt : nat;
  lastSeenAt : nat;
  ignored : bool
}.

(** Modelled from the spec: the two repositories of section 2, with the
    clock that stamps observations, the asset files under [./www/] and
    whether the serial port is open. *)
Record World : Type := mkWorld {
  RFCODES : list RFCode;
  CARDS : list Card;
  now : nat;
  files : list string;
  serial_open : bool
}.

Definition Code_of_json (v : value) : option Code :=
  match v with
  | Some (JNum n) => Some (CNum n)
  | Some (JStr s) => Some (CStr s)
  | _ => None
  end.

(** Modelled from the spec: [CodeStore.upsert] (section 4.1), insert if
    absent with fresh timestamps, else refresh [lastSeenAt]. *)
Fixpoint upsert (c : Code) (t : nat) (docs : list RFCode) : list RFCode :=
  match docs with
  | [] => [mkRFCode c t t false]
  | d :: rest =>
      if Code_eqb (code d) c
      then mkRFCode (code d) (firstSeenAt d) t (ignored d) :: rest
      else d :: upsert c t rest
  end.

(** Modelled from the spec: step 3 of section 4.6, the absent
    [dbFunctions.putCodeInDB].  An event without a numeric or string code has
    no key to store and is rejected. *)
Definition model_putCodeInDB (codeData : json) (w : World) : settled string * World :=
  match Code_of_json (code_of codeData) with
  | Some c =>
      (Resolved "code stored",
       mkWorld (upsert c (now w) (RFCODES w)) (CARDS w) (S (now w)) (files w)
               (serial_open w))
  | None => (Rejected "no code", w)
  end.

Definition same_code (c : Code) (field : option Code) : bool :=
  match field with
  | Some c' => Code_eqb c' c
  | None => false
  end.

(** Modelled from the spec: the dispatch by card type of section 4.2. *)
Definition references (c : Code) (card : Card) : bool :=
  if String.eqb (type card) "switch" then
    same_code c (on_code (device card)) || same_code c (off_code (device card))
  else if String.eqb (type card) "alarm" then
    same_code c (trigger_code (device card))
  else false.

(** Modelled from the spec: the AvailabilityResolver of section 4.2. *)
Definition resolve (c : Code) (w : World) : Availability :=
  match find (fun d => Code_eqb (code d) c) (RFCODES w) with
  | None => mkAvailability false None
  | Some d =>
      if ignored d then mkAvailability false None
      else match find (references c) (CARDS w) with
           | Some card => mkAvailability false (Some (shortname card))
           | None => mkAvailability true None
           end
  end.

(** Modelled from the spec: the absent [dbFunctions.isCodeAvailable]. *)
Definition model_isCodeAvailable (v : value) (w : World)
    : settled Availability * World :=
  match Code_of_json v with
  | Some c => (Resolved (resolve c w), w)
  | None => (Resolved (mkAvailability false None), w)
  end.

(** Modelled from the spec: the AlarmTriggerWorkflow of section 4.3, the
    absent [dbFunctions.alarmTriggered]. *)
Definition model_alarmTriggered (card_shortname : option string)
    (type_filter : string) (w : World) : settled (option Card) * World :=
  match card_shortname with
  | None => (Resolved None, w)
  | Some name =>
      match find (fun card => String.eqb (shortname card) name) (CARDS w) with
      | Some card =>
          if String.eqb (type card) type_filter
          then (Resolved (Some card), w) else (Resolved None, w)
      | None => (Resolved None, w)
      end
  end.

(** Modelled from the spec: the predicate of [CodeStore.removeWhere]
    (section 4.1) as the datastore reads a query; an [undefined] value
    matches no record. *)
Fixpoint matches (q : query) (d : RFCode) : bool :=
  match q with
  | QCode (Some c) => Code_eqb (code d) c
  | QCode None => false
  | QOr alternatives => existsb (fun q' => matches q' d) alternatives
  end.

Fixpoint remove_first (q : query) (docs : list RFCode) : list RFCode :=
  match docs with
  | [] => []
  | d :: rest => if matches q d then rest else d :: remove_first q rest
  end.

(** Modelled from the spec: [CodeStore.removeWhere(predicate, multi)]
    (section 4.1), which reports the count removed. *)
Definition removeWhere (q : query) (multi : bool) (docs : list RFCode)
    : list RFCode :=
  if multi then filter (fun d => negb (matches q d)) docs
  else remove_first q docs.

Definition model_RFCODES_remove (q : query) (multi : bool) (w : World)
    : (option Err * option nat) * World :=
  let kept := removeWhere q multi (RFCODES w) in
  ((None, Some (List.length (RFCODES w) - List.length kept)),
   mkWorld kept (CARDS w) (now w) (files w) (serial_open w)).

Fixpoint delete_file (file : string) (fs : list string) : option (list string) :=
  match fs with
  | [] => None
  | f :: rest =>
      if String.eqb f file then Some rest
      else match delete_file file rest with
           | Some rest' => Some (f :: rest')
           | None => None
           end
  end.

(** Modelled from the spec: asset-file deletion (section 4.4); deleting a
    file that is not there fails. *)
Definition model_fs_unlink (dir file : string) (w : World) : option Err * World :=
  match delete_file file (files w) with
  | Some fs => (None, mkWorld (RFCODES w) (CARDS w) (now w) fs (serial_open w))
  | None => (Some "ENOENT", w)
  end.

(** Modelled from the spec: [close(onClosed)] of section 6 on the serial
    line. *)
Definition model_serial_close (w : World) : option Err * World :=
  if serial_open w
  then (None, mkWorld (RFCODES w) (CARDS w) (now w) (files w) false)
  else (Some "Port is not open", w).

#[export] Instance model : Collaborators World := {
  putCodeInDB := model_putCodeInDB;
  isCodeAvailable := model_isCodeAvailable;
  alarmTriggered := model_alarmTriggered;
  RFCODES_remove := model_RFCODES_remove;
  fs_unlink := model_fs_unlink;
  serial_close := model_serial_close
}.

(** The cards and codes of the examples of section 8. *)
Definition card_S : Card :=
  mkCard "S" "switch" (mkDevice (Some (CNum 111)) (Some (CNum 222)) None false)
         (Some "uploads/s.png").

Definition card_A (is_armed : bool) : Card :=
  mkCard "A" "alarm" (mkDevice None None (Some (CNum 555)) is_armed) None.

Definition card_B : Card :=
  mkCard "B" "alarm" (mkDevice None None (Some (CNum 777)) true) None.

Definition card_info : Card :=
  mkCard "I" "info" (mkDevice None None None false) None.

Definition home (is_armed : bool) : World :=
  mkWorld [mkRFCode (CNum 111) 1 1 false; mkRFCode (CNum 222) 2 2 false;
           mkRFCode (CNum 555) 3 3 false]
          [card_S; card_A is_armed] 4 [] true.

Definition event (c : Z) (status : string) : json :=
  JObj [("code", JNum c); ("status", JStr status)].

(** [JSON.parse] on the three literal names only; every other line is
    refused.  It feeds the serial listener in closed examples. *)
Definition parse_literal (line : string) : option json :=
  if String.eqb line "null" then Some JNull
  else if String.eqb line "true" then Some (JBool true)
  else if String.eqb line "false" then Some (JBool false)
  else None.

End SpecModel.

(** ** The rest of components/platform.js and the starting flow of index.js

    What these parts do beyond printing is recorded as [action]s.  The
    answers of the outside during the start (the platform, the serial ports,
    what the user types, how the datastores and the port open) are the fields
    of [Startup]. *)

Inductive action : Type :=
| Out (e : effect)
| ListPorts                     (* serialPort.list(...) *)
| PromptGet                     (* prompt.start(); prompt.get(...) *)
| NewSerialPort (port : string) (* new SerialPort(board.port, {...}, false) *)
| RequireRpi433                 (* rpi433 = require('rpi-433') *)
| SerialOpen                    (* serial.open(...) *)
| Sniffer                       (* rfSniffer = rpi433.sniffer(pin, delay); rfSend = rpi433.sendCode *)
| SetTimeout (ms : nat)
| InitDB                        (* dbFunctions.initDBCards(...).then(dbFunctions.initDBSettings) *)
| Require (module : string)
| Listening (event : string)    (* a listener registered with .on *)
| Uncaught (e : Err).

Definition say (args : list logval) : action := Out (ConsoleLog args).

(** [print_colored_text(text)] *)
Definition print_colored_text (text : string) : action := say [LS text].

(** The argument of [new rf433mhz(...)]. *)
Record Board : Type := mkBoard {
  platform : string;
  port : string
}.

Record Startup : Type := mkStartup {
  (* what ascii_logo.js calls back with; [None] when it never calls back *)
  logo : option string;
  (* process.platform *)
  process_platform : string;
  (* fs.readFile('/etc/os-release', 'utf-8', ...): the error or the text *)
  os_release : Err + string;
  (* the comName of the ports serialPort.list answers with *)
  ports : list string;
  (* argv.serialport *)
  argv_serialport : option string;
  (* the whole numbers typed at the prompt, in order *)
  typed : list Z;
  (* the error the prompt ends with once the input is over *)
  prompt_error : Err;
  (* how the promise chain of init_db settles *)
  init_db : settled unit;
  (* the error serial.open calls back with *)
  open_error : option Err;
  (* whether server.js calls back with the server *)
  server : bool
}.

(** The variables of index.js the start sets: [rf433mhz], and whether the
    listeners of the [server] step are registered. *)
Record App : Type := mkApp {
  rf433mhz : option transport;
  listening : bool
}.

Definition is_exit (e : effect) : bool :=
  match e with ProcessExit => true | _ => false end.

Definition is_listening (a : action) : bool :=
  match a with Listening _ => true | _ => false end.

Definition is_uncaught (a : action) : bool :=
  match a with Uncaught _ => true | _ => false end.

(** [ports[i]], [undefined] outside the array. *)
Definition js_index (ports : list string) (i : Z) : option string :=
  if (i <? 0)%Z then None else nth_error ports (Z.to_nat i).

(** The [conform] function of the prompt:
    [value > 0 && value <= ports.length]. *)
Definition conform (ports : list string) (value : Z) : bool :=
  (0 <? value)%Z && (value <=? Z.of_nat (List.length ports))%Z.

(** [ports.forEach(function(port) { console.log('('+k+') '+port.comName); k++; })] *)
Fixpoint list_ports (k : nat) (ports : list string) : list action :=
  match ports with
  | [] => []
  | comName :: rest =>
      say [LS "("; LCount (Some k); LS ") "; LS comName] :: list_ports (S k) rest
  end.

(** [if (argv.serialport)]: a string is true unless it is empty. *)
Definition given (arg : option string) : option string :=
  match arg with
  | Some "" => None
  | other => other
  end.

Section Platform.

(** [config.DEBUG] *)
Variable DEBUG : bool.

(** [config.platforms.rpi['use-external-arduino']], read for its truth value. *)
Variable use_external_arduino : bool.

(** [String.prototype.trim] *)
Variable trim : string -> string.

(** [_constructor()]: the type of the new object and what it sets up. *)
Definition rf433mhz_constructor (board : option Board)
    : completion (list action * transport) :=
  match board with
  | None => Throw "No parameter passed to rf433mhz class"
  | Some b =>
      match transport_type (platform b) use_external_arduino with
      | arduino => Normal ([NewSerialPort (port b)], arduino)
      | rpi => Normal ([RequireRpi433], rpi)
      end
  end.

(** [this.openSerialPort = function (onOpen)]; [error] is what [serial.open]
    calls back with, [onOpen] what the caller's function does.  The boolean
    tells whether [onOpen] was called. *)
Definition rf433mhz_openSerialPort (t : transport) (error : option Err)
    (onOpen : list action) : list action * bool :=
  match t with
  | arduino =>
      match error with
      | Some e =>
          ([SerialOpen; say [LS "failed to open: "; LErr (Some e)]; Uncaught e],
           false)
      | None =>
          (SerialOpen :: (if DEBUG then [say [LS "Serial port opened"]] else [])
             ++ onOpen, true)
      end
  | rpi => ([Sniffer], false)
  end.

(** [function choose_port(whatToUse)]: what it does and the board it makes
    the object from, [None] when it makes none.  This is the function when
    [serialPort.list] answers with the ports and the numbers typed at the
    prompt are whole; [choose_port_numbers] below drops both conditions. *)
Definition choose_port (whatToUse : string) (env : Startup)
    : list action * option Board :=
  match ports env with
  | [] => ([ListPorts; say [LS "No ports available"]], None)
  | _ :: _ =>
      let listing :=
        ListPorts :: say [LS "Selectable serial ports:"]
          :: list_ports 1 (ports env) in
      match given (argv_serialport env) with
      | Some serialport => (listing, Some (mkBoard whatToUse (trim serialport)))
      | None =>
          match find (conform (ports env)) (typed env) with
          | None =>
              (listing ++ [PromptGet; Out (ConsoleError [LErr (Some (prompt_error env))])],
               None)
          | Some answer =>
              match js_index (ports env) (answer - 1) with
              | Some comName =>
                  (listing ++ [PromptGet; say [LS "Choosen port:"; LS comName]],
                   Some (mkBoard whatToUse comName))
              | None =>
                  (listing ++ [PromptGet;
                               Uncaught "TypeError: Cannot read property 'comName' of undefined"],
                   None)
              end
          end
      end
  end.

(** [switch(process.platform)]: what is printed and the argument
    [choose_port] is emitted with, [None] when it is not emitted. *)
Definition detect_platform (env : Startup) : list action * option string :=
  if String.eqb (process_platform env) "win32" then
    ([print_colored_text "Running on Windows platform"], Some "arduino")
  else if String.eqb (process_platform env) "darwin" then
    ([print_colored_text "Running on MAC OS X platform"], Some "arduino")
  else if String.eqb (process_platform env) "linux" then
    match os_release env with
    | inl err => ([say [LErr (Some err)]], None)
    | inr data =>
        match String.index 0 "ID=raspbian" data with
        | Some _ =>
            ([print_colored_text "Running on RPi platform";
              say [LS "Using external Arduino: "; LB use_external_arduino]],
             Some "rpi")
        | None => ([print_colored_text "Running on Linux platform"], Some "arduino")
        end
    end
  else
    ([print_colored_text
        (String.append "Platform "
           (String.append (process_platform env) " not supported"))],
     None).

(** [module.exports = function(argv, module_callback)]: what it does and the
    object [module_callback] is called with, [None] when it is not called. *)
Definition module_exports (env : Startup) : list action * option transport :=
  let (shown, whatToUse) := detect_platform env in
  match whatToUse with
  | None => (shown, None)
  | Some use =>
      let (chosen, board) := choose_port use env in
      match board with
      | None => (shown ++ chosen, None)
      | Some b =>
          match rf433mhz_constructor (Some b) with
          | Normal (made, t) => (shown ++ chosen ++ made, Some t)
          | Throw e => (shown ++ chosen ++ [Uncaught e], None)
          end
      end
  end.

(** *** The starting flow of index.js *)

(** One task of [async.series]: what it does, the variables after it, and
    whether it calls its callback. *)
Definition task := App -> list action * App * bool.

(** [async.series]: the tasks in order, each after the one before has called
    back. *)
Fixpoint series (tasks : list task) (app : App) : list action * App :=
  match tasks with
  | [] => ([], app)
  | t :: rest =>
      let '(done, app', called) := t app in
      if called then
        let (more, app'') := series rest app' in (done ++ more, app'')
      else (done, app')
  end.

Definition ascii_logo (env : Startup) : task := fun app =>
  match logo env with
  | Some text => ([Require "./components/ascii_logo.js"; say [LS text]], app, true)
  | None => ([Require "./components/ascii_logo.js"], app, false)
  end.

Definition platform_task (env : Startup) : task := fun app =>
  let (done, rf) := module_exports env in
  match rf with
  | Some t =>
      (say [LS "Debug Mode:"; LB DEBUG] :: done, mkApp (Some t) (listening app), true)
  | None => (say [LS "Debug Mode:"; LB DEBUG] :: done, app, false)
  end.

Definition init_db_task (env : Startup) : task := fun app =>
  match init_db env with
  | Resolved _ => ([InitDB], app, true)
  | Rejected err =>
      ([InitDB; say [LS "init_db error:"; LErr (Some err)]; say [LErr (Some err)]],
       app, false)
  end.

Definition init_rf (env : Startup) : task := fun app =>
  match rf433mhz app with
  | Some t =>
      let (done, opened) :=
        rf433mhz_openSerialPort t (open_error env) [SetTimeout 2000] in
      (done, app, opened)
  | None =>
      ([Uncaught "TypeError: Cannot read property 'openSerialPort' of undefined"],
       app, false)
  end.

(** What [rf433mhz.on(...)] does when the [server] step calls it: it
    registers on the sniffer or on the serial port. *)
Definition register_on (rf : option transport) : action :=
  match rf with
  | Some rpi => Listening "codes"
  | Some arduino => Listening "data"
  | None => Uncaught "TypeError: Cannot read property 'on' of undefined"
  end.

Definition server_task (env : Startup) : task := fun app =>
  if server env then
    ([Require "./components/server.js"; Require "./components/api.js";
      Require "console-mirroring"; Require "./components/socketFunctions.js";
      Listening "connection"; Listening "inserted"; Listening "removed";
      register_on (rf433mhz app)],
     mkApp (rf433mhz app) true, true)
  else ([Require "./components/server.js"], app, true).

(** [async.series({ascii_logo, platform, init_db, init_rf, server}, ...)] *)
Definition startup (env : Startup) : list action * App :=
  series [ascii_logo env; platform_task env; init_db_task env; init_rf env;
          server_task env]
         (mkApp None false).

End Platform.

(** *** [choose_port] on every answer

    The prompt asks for a value of type ['number'] and hands over fractions
    as well; [serialPort.list] may call back with an error and no ports. *)

(** A number the prompt hands over: a finite double, which is a rational. *)
Definition number : Type := QArith_base.Q.

(** The integer a number is, [None] when it has a fractional part. *)
Definition whole (v : number) : option Z :=
  if (QArith_base.Qnum v mod Z.pos (QArith_base.Qden v) =? 0)%Z
  then Some (QArith_base.Qnum v / Z.pos (QArith_base.Qden v))%Z
  else None.

(** [ports[i]] for a number [i]: only a whole number inside the array names
    an element. *)
Definition js_index_number (ports : list string) (i : number) : option string :=
  match whole i with
  | Some z => js_index ports z
  | None => None
  end.

(** [value > 0 && value <= ports.length] *)
Definition conform_number (ports : list string) (value : number) : bool :=
  negb (QArith_base.Qle_bool value (QArith_base.inject_Z 0))
  && QArith_base.Qle_bool value
       (QArith_base.inject_Z (Z.of_nat (List.length ports))).

Section PlatformNumbers.

(** [String.prototype.trim] *)
Variable trim : string -> string.

(** [function choose_port(whatToUse)]; [listed] is the [ports] argument of
    the callback of [serialPort.list], [None] when the call failed and it is
    [undefined]; [answers] are the numbers typed at the prompt, which hands
    over the first one its [conform] accepts. *)
Definition choose_port_numbers (whatToUse : string)
    (listed : option (list string)) (serialport : option string)
    (answers : list number) (prompt_error : Err) : list action * option Board :=
  match listed with
  | None =>
      ([ListPorts;
        Uncaught "TypeError: Cannot read property 'length' of undefined"],
       None)
  | Some [] => ([ListPorts; say [LS "No ports available"]], None)
  | Some ports =>
      let listing :=
        ListPorts :: say [LS "Selectable serial ports:"] :: list_ports 1 ports in
      match given serialport with
      | Some arg => (listing, Some (mkBoard whatToUse (trim arg)))
      | None =>
          match find (conform_number ports) answers with
          | None =>
              (listing ++ [PromptGet; Out (ConsoleError [LErr (Some prompt_error)])],
               None)
          | Some answer =>
              match js_index_number ports
                      (QArith_base.Qminus answer (QArith_base.inject_Z 1)) with
              | Some comName =>
                  (listing ++ [PromptGet; say [LS "Choosen port:"; LS comName]],
                   Some (mkBoard whatToUse comName))
              | None =>
                  (listing ++ [PromptGet;
                               Uncaught "TypeError: Cannot read property 'comName' of undefined"],
                   None)
              end
          end
      end
  end.

End PlatformNumbers.

(** ** More ways of reading a run *)

(** Whether the upsert and the availability lookup of a ['received'] event
    both resolve. *)
Definition resolves {W : Type} {collab : Collaborators W} (codeData : json)
    (w : W) : bool :=
  received codeData &&
  match putCodeInDB codeData w with
  | (Resolved _, w1) =>
      match isCodeAvailable (code_of codeData) w1 with
      | (Resolved _, _) => true
      | (Rejected _, _) => false
      end
  | (Rejected _, _) => false
  end.

(** What an event can lead to beyond the two store calls: an emission to the
    live clients, a webhook or advise call, the alarm lookup. *)
Definition is_outcome (e : effect) : bool :=
  is_emit e || is_alarm_advise e || is_code_detected e || is_alarm_lookup e.

Definition silent (e : effect) : bool := negb (is_console e).

(** Collaborators whose stores are down: the upsert works in world [true]
    only, every other call fails. *)
Module Outage.

Definition down : Collaborators bool := {|
  putCodeInDB := fun (_ : json) (w : bool) =>
    if w then (Resolved "stored", w) else (Rejected "EIO", w);
  isCodeAvailable := fun (_ : value) (w : bool) => (Rejected "EIO", w);
  alarmTriggered := fun (_ : option string) (_ : string) (w : bool) =>
    (Rejected "EIO", w);
  RFCODES_remove := fun (_ : query) (_ : bool) (w : bool) =>
    ((Some "EIO", None), w);
  fs_unlink := fun (_ _ : string) (w : bool) => (Some "EIO", w);
  serial_close := fun (w : bool) => (Some "EIO", w)
|}.

End Outage.

(** Two machines to start on: a Raspberry Pi and a desktop, each with one
    serial port and a user who first types a number out of range. *)
Definition on_pi : Startup :=
  mkStartup (Some "iot-433mhz") "linux" (inr "NAME=Raspbian ID=raspbian")
            ["/dev/ttyACM0"] None [5%Z; 1%Z] "canceled" (Resolved tt) None true.

Definition on_desktop (failure : option Err) : Startup :=
  mkStartup (Some "iot-433mhz") "darwin" (inl "ENOENT")
            ["/dev/cu.usb1"; "/dev/cu.usb2"] None [0%Z; 2%Z] "canceled"
            (Resolved tt) failure true.

(** * Properties of the code-event listener *)

Section CodeEvents.

Context {W : Type} {collab : Collaborators W}.
Variable DEBUG : bool.

Lemma filter_debug (p : effect -> bool) (args : list logval) :
  p (ConsoleLog args) = false -> filter p (debug DEBUG args) = [].
Proof.
  intros Hp. unfold debug. destruct DEBUG; simpl; [rewrite Hp|]; reflexivity.
Qed.

Lemma in_debug (e : effect) (args : list logval) :
  In e (debug DEBUG args) -> e = ConsoleLog args.
Proof.
  unfold debug. destruct DEBUG; simpl; intuition congruence.
Qed.

Lemma filter_upto_resolved (p : effect -> bool) codeData mex result :
  (forall args, p (ConsoleLog args) = false) ->
  p (PutCodeInDB codeData) = false ->
  p (IsCodeAvailable (code_of codeData)) = false ->
  filter p (upto_resolved DEBUG codeData mex result) = [].
Proof.
  intros Hlog Hput Hask. unfold upto_resolved.
  rewrite !filter_app, !filter_debug by apply Hlog.
  simpl. rewrite Hput, Hask. reflexivity.
Qed.

Lemma received_object (codeData : json) :
  received codeData = true -> exists fields, codeData = JObj fields.
Proof.
  destruct codeData; simpl; try discriminate. intros _. now eexists.
Qed.

Lemma filter_alarm_then_detected (r : settled (option Card)) :
  filter is_code_detected (alarm_then r) = [].
Proof.
  destruct r as [[card|]|err]; simpl; try reflexivity.
  destruct (armed (device card)); reflexivity.
Qed.

(** The whole run of an event that is stored and resolved. *)
Lemma on_codeData_resolved codeData (w w1 w2 : W) mex result :
  received codeData = true ->
  putCodeInDB codeData w = (Resolved mex, w1) ->
  isCodeAvailable (code_of codeData) w1 = (Resolved result, w2) ->
  effects (on_codeData DEBUG codeData w) =
    upto_resolved DEBUG codeData mex result ++
    (if isAvailable result then
       [IoEmit "newRFCode" (PCode codeData); WebHookCodeDetected codeData]
     else
       [AlarmTriggered (assignedTo result) "alarm"; WebHookCodeDetected codeData]
         ++ alarm_then (fst (alarmTriggered (assignedTo result) "alarm" w2)))
  /\ world (on_codeData DEBUG codeData w) =
       (if isAvailable result then w2
        else snd (alarmTriggered (assignedTo result) "alarm" w2))
  /\ thrown (on_codeData DEBUG codeData w) = None.
Proof.
  intros Hrec Hput Hask.
  destruct (received_object _ Hrec) as [fields ->].
  unfold received in Hrec. unfold code_of in *. simpl in Hrec, Hask.
  unfold on_codeData, effects, upto_resolved, code_of. simpl. rewrite Hrec, Hput.
  unfold stored_then. simpl. rewrite Hask.
  unfold available_then.
  destruct (isAvailable result).
  - unfold debug. destruct DEBUG; simpl; auto.
  - destruct (alarmTriggered (assignedTo result) "alarm" w2) as [r w3].
    unfold debug. destruct DEBUG; simpl; auto.
Qed.

(** The run of an event whose status is not ['received']. *)
Lemma on_codeData_ignored codeData (w : W) :
  received codeData = false ->
  effects (on_codeData DEBUG codeData w) =
    debug DEBUG [LS "RFcode received: "; LJ codeData]
  /\ world (on_codeData DEBUG codeData w) = w.
Proof.
  intros Hrec. unfold on_codeData, effects, received in *.
  destruct (prop codeData "status") as [status|e]; simpl.
  - rewrite Hrec. simpl. rewrite app_nil_r. auto.
  - rewrite app_nil_r. auto.
Qed.

(** The synchronous part of the run of a ['received'] event. *)
Lemma on_codeData_received codeData (w : W) :
  received codeData = true ->
  sync (on_codeData DEBUG codeData w) =
    debug DEBUG [LS "RFcode received: "; LJ codeData] ++ [PutCodeInDB codeData].
Proof.
  intros Hrec. unfold on_codeData, received in *.
  destruct (prop codeData "status") as [status|e]; [|discriminate].
  rewrite Hrec. destruct (putCodeInDB codeData w) as [[mex|err] w1].
  - destruct (stored_then DEBUG codeData mex w1). reflexivity.
  - reflexivity.
Qed.

(** C1: alarm gating.  When a received code resolves as not available and
    the alarm workflow returns the card it is assigned to, the listener emits
    ['uiTriggerAlarm'] with that card to the live clients whatever the armed
    flag is, and calls [notification.alarmAdviseAll] for the card exactly when
    [card.device.armed] is set: armed, one call; not armed, none. *)
Theorem alarm_gating codeData (w w1 w2 w3 : W) mex result card :
  received codeData = true ->
  putCodeInDB codeData w = (Resolved mex, w1) ->
  isCodeAvailable (code_of codeData) w1 = (Resolved result, w2) ->
  isAvailable result = false ->
  alarmTriggered (assignedTo result) "alarm" w2 = (Resolved (Some card), w3) ->
  filter is_emit (effects (on_codeData DEBUG codeData w))
    = [IoEmit "uiTriggerAlarm" (PCard card)]
  /\ filter is_alarm_advise (effects (on_codeData DEBUG codeData w))
       = (if armed (device card) then [AlarmAdviseAll card] else [])
  /\ (In (AlarmAdviseAll card) (effects (on_codeData DEBUG codeData w))
      <-> armed (device card) = true).
Proof.
  intros Hrec Hput Hask Hno Halarm.
  destruct (on_codeData_resolved codeData w w1 w2 mex result Hrec Hput Hask) as (-> & _ & _).
  rewrite Hno, Halarm. simpl fst. simpl alarm_then.
  assert (Hemit : filter is_emit (upto_resolved DEBUG codeData mex result) = [])
    by (apply filter_upto_resolved; reflexivity).
  assert (Hadv : filter is_alarm_advise (upto_resolved DEBUG codeData mex result) = [])
    by (apply filter_upto_resolved; reflexivity).
  split; [|split].
  - rewrite filter_app, Hemit. simpl.
    destruct (armed (device card)); reflexivity.
  - rewrite filter_app, Hadv. simpl.
    destruct (armed (device card)); reflexivity.
  - assert (Hin : forall e t, is_alarm_advise e = true ->
                    (In e t <-> In e (filter is_alarm_advise t))).
    { intros e t He. rewrite filter_In. tauto. }
    rewrite (Hin (AlarmAdviseAll card)) by reflexivity.
    rewrite filter_app, Hadv. simpl.
    destruct (armed (device card)); simpl; intuition discriminate.
Qed.

(** C3: always-detected webhook.  A received code that is stored and
    resolved, as available or as not available and whatever the alarm lookup
    then answers, leads to exactly one [notification.webHookCodeDetected]
    call, and that call carries the raw code event. *)
Theorem code_detected_once codeData (w w1 w2 : W) mex result :
  received codeData = true ->
  putCodeInDB codeData w = (Resolved mex, w1) ->
  isCodeAvailable (code_of codeData) w1 = (Resolved result, w2) ->
  filter is_code_detected (effects (on_codeData DEBUG codeData w))
    = [WebHookCodeDetected codeData].
Proof.
  intros Hrec Hput Hask.
  destruct (on_codeData_resolved codeData w w1 w2 mex result Hrec Hput Hask) as (-> & _ & _).
  rewrite filter_app, filter_upto_resolved by reflexivity.
  destruct (isAvailable result); simpl.
  - reflexivity.
  - now rewrite filter_alarm_then_detected.
Qed.

(** C4: status guard.  The pipeline runs exactly for the events whose
    status is ['received'].  For such an event the listener calls
    [putCodeInDB]; once that resolves it asks [isCodeAvailable] for the
    event's code, once; and once that resolves it notifies: ['newRFCode'] to
    the live clients or the alarm workflow, and the code-detected webhook,
    once.  For any other status (or none) all it may do is print the debug
    line: the world, and with it every store, is left as it was, no store is
    called and nothing is notified.  So whatever is not console output in a
    run belongs to a ['received'] event. *)
Theorem status_guard codeData (w : W) :
  (In (PutCodeInDB codeData) (effects (on_codeData DEBUG codeData w))
     <-> received codeData = true)
  /\ (received codeData = true ->
      sync (on_codeData DEBUG codeData w) =
        debug DEBUG [LS "RFcode received: "; LJ codeData]
          ++ [PutCodeInDB codeData])
  /\ (received codeData = true ->
      forall mex w1, putCodeInDB codeData w = (Resolved mex, w1) ->
      filter is_availability (effects (on_codeData DEBUG codeData w))
        = [IsCodeAvailable (code_of codeData)]
      /\ forall result w2,
          isCodeAvailable (code_of codeData) w1 = (Resolved result, w2) ->
          effects (on_codeData DEBUG codeData w) =
            upto_resolved DEBUG codeData mex result ++
            (if isAvailable result then
               [IoEmit "newRFCode" (PCode codeData);
                WebHookCodeDetected codeData]
             else
               [AlarmTriggered (assignedTo result) "alarm";
                WebHookCodeDetected codeData]
                 ++ alarm_then
                      (fst (alarmTriggered (assignedTo result) "alarm" w2)))
          /\ filter is_code_detected (effects (on_codeData DEBUG codeData w))
               = [WebHookCodeDetected codeData]
          /\ world (on_codeData DEBUG codeData w) =
               (if isAvailable result then w2
                else snd (alarmTriggered (assignedTo result) "alarm" w2)))
  /\ (received codeData = false ->
      world (on_codeData DEBUG codeData w) = w
      /\ effects (on_codeData DEBUG codeData w) =
           debug DEBUG [LS "RFcode received: "; LJ codeData]
      /\ filter (fun e => negb (is_console e))
                (effects (on_codeData DEBUG codeData w)) = [])
  /\ (forall e, In e (effects (on_codeData DEBUG codeData w)) ->
      is_console e = false -> received codeData = true).
Proof.
  split; [|split; [|split; [|split]]].
  - split.
    + intros Hin. destruct (received codeData) eqn:Hrec; [reflexivity|].
      destruct (on_codeData_ignored codeData w Hrec) as [Heff _].
      rewrite Heff in Hin. apply in_debug in Hin. discriminate.
    + intros Hrec. unfold effects.
      rewrite (on_codeData_received codeData w Hrec).
      apply in_or_app. left. apply in_or_app. right. now left.
  - apply on_codeData_received.
  - intros Hrec mex w1 Hput. split.
    + destruct (received_object _ Hrec) as [fields ->].
      unfold received in Hrec. simpl in Hrec.
      unfold on_codeData, effects, stored_then, available_then, code_of.
      simpl. rewrite Hrec, Hput.
      destruct (isCodeAvailable (assoc "code" fields) w1) as [[result|err] w2];
        [destruct (isAvailable result);
         [|destruct (alarmTriggered (assignedTo result) "alarm" w2)
             as [[[card|]|e] w3]]|];
        unfold debug; destruct DEBUG; simpl; try reflexivity;
        destruct (armed (device card)); reflexivity.
    + intros result w2 Hask.
      destruct (on_codeData_resolved codeData w w1 w2 mex result Hrec Hput Hask)
        as (Heff & Hw & _).
      split; [exact Heff|split; [|exact Hw]].
      rewrite Heff, filter_app, filter_upto_resolved by reflexivity.
      destruct (isAvailable result); simpl; [reflexivity|].
      now rewrite filter_alarm_then_detected.
  - intros Hrec. destruct (on_codeData_ignored codeData w Hrec) as [Heff Hw].
    rewrite Heff. repeat split; trivial.
    now apply filter_debug.
  - intros e Hin Hsilent. destruct (received codeData) eqn:Hrec; [reflexivity|].
    destruct (on_codeData_ignored codeData w Hrec) as [Heff _].
    rewrite Heff in Hin. apply in_debug in Hin. subst e. discriminate.
Qed.

(** C5: available branch.  When a received code resolves as available the
    listener emits ['newRFCode'] with the raw code event through [io.emit],
    which is its only emission, then the code-detected webhook, and it never
    calls [dbFunctions.alarmTriggered]. *)
Theorem available_broadcast codeData (w w1 w2 : W) mex result :
  received codeData = true ->
  putCodeInDB codeData w = (Resolved mex, w1) ->
  isCodeAvailable (code_of codeData) w1 = (Resolved result, w2) ->
  isAvailable result = true ->
  effects (on_codeData DEBUG codeData w) =
    upto_resolved DEBUG codeData mex result
      ++ [IoEmit "newRFCode" (PCode codeData); WebHookCodeDetected codeData]
  /\ filter is_emit (effects (on_codeData DEBUG codeData w))
       = [IoEmit "newRFCode" (PCode codeData)]
  /\ filter is_alarm_lookup (effects (on_codeData DEBUG codeData w)) = []
  /\ filter is_alarm_advise (effects (on_codeData DEBUG codeData w)) = [].
Proof.
  intros Hrec Hput Hask Hyes.
  destruct (on_codeData_resolved codeData w w1 w2 mex result Hrec Hput Hask) as (-> & _ & _).
  rewrite Hyes.
  repeat split; rewrite ?filter_app, ?filter_upto_resolved by reflexivity;
    reflexivity.
Qed.

(** C9: the code-detected webhook does not wait for the alarm lookup.  In
    the not-available branch the listener calls [dbFunctions.alarmTriggered]
    and, in the same turn, [notification.webHookCodeDetected]; whatever the
    lookup's promise does afterwards comes later in the run.  So the dispatch
    happens, once, also when that promise rejects, in which case the error is
    printed with [console.error] and nothing else follows. *)
Theorem code_detected_despite_alarm codeData (w w1 w2 w3 : W) mex result r :
  received codeData = true ->
  putCodeInDB codeData w = (Resolved mex, w1) ->
  isCodeAvailable (code_of codeData) w1 = (Resolved result, w2) ->
  isAvailable result = false ->
  alarmTriggered (assignedTo result) "alarm" w2 = (r, w3) ->
  effects (on_codeData DEBUG codeData w) =
    upto_resolved DEBUG codeData mex result
      ++ [AlarmTriggered (assignedTo result) "alarm";
          WebHookCodeDetected codeData]
      ++ alarm_then r
  /\ filter is_code_detected (effects (on_codeData DEBUG codeData w))
       = [WebHookCodeDetected codeData]
  /\ (forall err, r = Rejected err ->
      effects (on_codeData DEBUG codeData w) =
        upto_resolved DEBUG codeData mex result
          ++ [AlarmTriggered (assignedTo result) "alarm";
              WebHookCodeDetected codeData;
              ConsoleError [LErr (Some err)]]).
Proof.
  intros Hrec Hput Hask Hno Halarm.
  destruct (on_codeData_resolved codeData w w1 w2 mex result Hrec Hput Hask) as (-> & _ & _).
  rewrite Hno, Halarm. simpl fst.
  split; [reflexivity|split].
  - rewrite filter_app, filter_upto_resolved by reflexivity.
    simpl. now rewrite filter_alarm_then_detected.
  - intros err ->. reflexivity.
Qed.

End CodeEvents.

(** * Properties of the card listeners *)

Section CardEvents.

Context {W : Type} {collab : Collaborators W}.

Lemma CARDS_on_removed_run (order : schedule) (card : Card) (w : W) :
  sync (CARDS_on_removed order card w) =
    removal_calls card
      ++ [ConsoleLog [LS "Card "; LS (shortname card); LS " deleted."];
          AsyncEmitInitCards]
  /\ later (CARDS_on_removed order card w) = reports order card w
  /\ thrown (CARDS_on_removed order card w) = None.
Proof.
  unfold CARDS_on_removed, removal_calls, reports, cascade_report,
    unlink_report, world_at_remove, world_at_unlink.
  destruct order.
  - destruct (remove_codes card w) as [remove_done w1]. simpl.
    destruct (delete_img card w1) as [unlink_done w2]. simpl.
    now rewrite <- app_assoc.
  - destruct (delete_img card w) as [unlink_done w1]. simpl.
    destruct (remove_codes card w1) as [remove_done w2]. simpl.
    now rewrite <- app_assoc.
Qed.

Lemma filter_removal_calls (card : Card) :
  filter is_remove (removal_calls card) =
    match codes_to_remove card with
    | Some q => [RfcodesRemove q true]
    | None => []
    end
  /\ filter is_cards_changed (removal_calls card) = [].
Proof.
  unfold removal_calls.
  destruct (codes_to_remove card), (img_file card); simpl; auto.
Qed.

Lemma filter_remove_codes (p : effect -> bool) (card : Card) (w : W) :
  (forall args, p (ConsoleLog args) = false) ->
  filter p (fst (remove_codes card w)) = [].
Proof.
  intros Hlog. unfold remove_codes, removed_callback.
  destruct (codes_to_remove card) as [q|]; [|reflexivity].
  destruct (RFCODES_remove q true w) as [[[e|] numRemoved] w']; simpl;
    rewrite ?Hlog; reflexivity.
Qed.

Lemma filter_delete_img (p : effect -> bool) (card : Card) (w : W) :
  (forall args, p (ConsoleError args) = false) ->
  filter p (fst (delete_img card w)) = [].
Proof.
  intros Herr. unfold delete_img, unlink_callback.
  destruct (img_file card) as [file|]; [|reflexivity].
  destruct (fs_unlink "./www/" file w) as [[e|] w']; simpl;
    rewrite ?Herr; reflexivity.
Qed.

Lemma filter_reports (p : effect -> bool) (order : schedule) (card : Card)
    (w : W) :
  (forall args, p (ConsoleLog args) = false) ->
  (forall args, p (ConsoleError args) = false) ->
  filter p (reports order card w) = [].
Proof.
  intros Hlog Herr. unfold reports, cascade_report, unlink_report.
  destruct order; rewrite filter_app, filter_remove_codes, filter_delete_img;
    auto.
Qed.

Lemma codes_to_remove_switch (card : Card) :
  type card = "switch" ->
  codes_to_remove card =
    Some (QOr [QCode (on_code (device card)); QCode (off_code (device card))]).
Proof. intros H. unfold codes_to_remove. now rewrite H. Qed.

Lemma codes_to_remove_alarm (card : Card) :
  type card = "alarm" ->
  codes_to_remove card = Some (QCode (trigger_code (device card))).
Proof. intros H. unfold codes_to_remove. now rewrite H. Qed.

Lemma codes_to_remove_other (card : Card) :
  type card <> "switch" -> type card <> "alarm" -> codes_to_remove card = None.
Proof.
  intros Hs Ha. unfold codes_to_remove.
  apply String.eqb_neq in Hs, Ha. now rewrite Hs, Ha.
Qed.

(** C2: the codes removed with a card.  The 'removed' listener asks the
    RFCODES datastore for at most one removal, always with [multi: true], and
    the query is fixed by the card's type and that type's device codes: for a
    switch the [$or] of [on_code] and [off_code], for an alarm the
    [trigger_code], and for any other type no removal is asked at all.  When
    the datastore reports zero records removed and no error, its callback
    prints the count like any other and nothing else, and the listener does
    not throw; this holds in whichever order the datastore and the file
    system call back. *)
Theorem removed_card_codes (order : schedule) (card : Card) (w : W) :
  filter is_remove (effects (CARDS_on_removed order card w)) =
    match codes_to_remove card with
    | Some q => [RfcodesRemove q true]
    | None => []
    end
  /\ (type card = "switch" ->
      codes_to_remove card =
        Some (QOr [QCode (on_code (device card));
                   QCode (off_code (device card))]))
  /\ (type card = "alarm" ->
      codes_to_remove card = Some (QCode (trigger_code (device card))))
  /\ (type card <> "switch" -> type card <> "alarm" ->
      codes_to_remove card = None)
  /\ (forall card', type card' = type card -> device card' = device card ->
      codes_to_remove card' = codes_to_remove card)
  /\ (forall q w', codes_to_remove card = Some q ->
      RFCODES_remove q true (world_at_remove order card w)
        = ((None, Some 0), w') ->
      cascade_report order card w
        = [ConsoleLog [LCount (Some 0); LS " code/s deleted."]]
      /\ later (CARDS_on_removed order card w) =
           match order with
           | remove_answers_first =>
               ConsoleLog [LCount (Some 0); LS " code/s deleted."]
                 :: unlink_report order card w
           | unlink_answers_first =>
               unlink_report order card w
                 ++ [ConsoleLog [LCount (Some 0); LS " code/s deleted."]]
           end
      /\ thrown (CARDS_on_removed order card w) = None).
Proof.
  destruct (CARDS_on_removed_run order card w) as (Hsync & Hlater & Hthrown).
  destruct (filter_removal_calls card) as [Hrem _].
  split; [|split; [|split; [|split; [|split]]]].
  - unfold effects. rewrite Hsync, Hlater, !filter_app, Hrem.
    rewrite filter_reports by reflexivity.
    simpl. now rewrite !app_nil_r.
  - apply codes_to_remove_switch.
  - apply codes_to_remove_alarm.
  - apply codes_to_remove_other.
  - intros card' Ht Hd. unfold codes_to_remove. now rewrite Ht, Hd.
  - intros q w' Hq Hzero.
    assert (Hreport : cascade_report order card w
                      = [ConsoleLog [LCount (Some 0); LS " code/s deleted."]]).
    { unfold cascade_report, remove_codes. rewrite Hq, Hzero. reflexivity. }
    split; [exact Hreport|split; [|exact Hthrown]].
    rewrite Hlater. unfold reports. rewrite Hreport. now destruct order.
Qed.

(** C6: the cards-changed signal.  The 'inserted' listener does nothing but
    call [socketFunctions.asyncEmitInitCards]; the 'removed' listener calls
    the same function, once, as the last thing before it returns, after
    starting the removal of the codes and of the image and before either of
    them has answered, so whatever they answer and in whichever order.  When
    deleting the image fails, the callback of [fs.unlink] prints the failure
    with [console.error], naming [err.path]; the listener does not throw, and
    the removal of the codes was asked as for any other card. *)
Theorem cards_changed_signal (order : schedule) (card : Card) (w : W) :
  effects (CARDS_on_inserted card w) = [AsyncEmitInitCards]
  /\ sync (CARDS_on_removed order card w) =
       removal_calls card
         ++ [ConsoleLog [LS "Card "; LS (shortname card); LS " deleted."];
             AsyncEmitInitCards]
  /\ filter is_cards_changed (effects (CARDS_on_removed order card w))
       = [AsyncEmitInitCards]
  /\ thrown (CARDS_on_removed order card w) = None
  /\ (forall file err w', img_file card = Some file ->
      fs_unlink "./www/" file (world_at_unlink order card w) = (Some err, w') ->
      unlink_report order card w
        = [ConsoleError [LS "DeleteFile: file not found"; LPath err]]
      /\ later (CARDS_on_removed order card w) =
           match order with
           | remove_answers_first =>
               cascade_report order card w
                 ++ [ConsoleError [LS "DeleteFile: file not found"; LPath err]]
           | unlink_answers_first =>
               ConsoleError [LS "DeleteFile: file not found"; LPath err]
                 :: cascade_report order card w
           end
      /\ filter is_remove (sync (CARDS_on_removed order card w)) =
           match codes_to_remove card with
           | Some q => [RfcodesRemove q true]
           | None => []
           end).
Proof.
  destruct (CARDS_on_removed_run order card w) as (Hsync & Hlater & Hthrown).
  destruct (filter_removal_calls card) as [Hrem Hsig].
  split; [reflexivity|split; [exact Hsync|split; [|split; [exact Hthrown|]]]].
  - unfold effects. rewrite Hsync, Hlater, !filter_app, Hsig.
    rewrite filter_reports by reflexivity. reflexivity.
  - intros file err w' Himg Hfail.
    assert (Hreport : unlink_report order card w
              = [ConsoleError [LS "DeleteFile: file not found"; LPath err]]).
    { unfold unlink_report, delete_img. rewrite Himg, Hfail. reflexivity. }
    split; [exact Hreport|split].
    + rewrite Hlater. unfold reports. rewrite Hreport. now destruct order.
    + rewrite Hsync, filter_app, Hrem. simpl. now rewrite app_nil_r.
Qed.

End CardEvents.

(** * Properties of the transport *)

Section Transport.

Context {W : Type} {collab : Collaborators W}.
Variable DEBUG : bool.
Variable JSON_parse : string -> option json.

Lemma deliver_app (listener : string -> W -> trace * W)
    (before after : list string) (w : W) :
  deliver listener (before ++ after) w =
    (fst (deliver listener before w)
       ++ fst (deliver listener after (snd (deliver listener before w))),
     snd (deliver listener after (snd (deliver listener before w)))).
Proof.
  revert w. induction before as [|data before IH]; intros w; simpl.
  - now destruct (deliver listener after w).
  - destruct (listener data w) as [t w1]. rewrite IH.
    destruct (deliver listener before w1) as [t1 w2]. simpl.
    now rewrite app_assoc.
Qed.

(** C7: malformed payload.  On the serial transport a line that
    [JSON.parse] refuses makes the listener print it and nothing else: the
    callback, whatever it is, is not called, and the world is as before.  The
    lines delivered before and after it are handled as if it had not come. *)
Theorem malformed_payload_dropped (callback : json -> W -> run W)
    (data : string) (w : W) :
  JSON_parse data = None ->
  rf433mhz_on JSON_parse arduino callback data w =
    ([ConsoleLog [LS "Error parsing this JSON: "; LS data]], w)
  /\ forall before after : list string,
      let listener := rf433mhz_on JSON_parse arduino callback in
      let w1 := snd (deliver listener before w) in
      deliver listener (before ++ data :: after) w =
        (fst (deliver listener before w)
           ++ ConsoleLog [LS "Error parsing this JSON: "; LS data]
           :: fst (deliver listener after w1),
         snd (deliver listener after w1)).
Proof.
  intros Hbad.
  assert (Hone : forall w0, rf433mhz_on JSON_parse arduino callback data w0 =
            ([ConsoleLog [LS "Error parsing this JSON: "; LS data]], w0)).
  { intros w0. unfold rf433mhz_on. now rewrite Hbad. }
  split; [apply Hone|].
  intros before after listener w1. rewrite deliver_app. fold w1.
  simpl deliver. fold listener. unfold listener at 2 4. rewrite Hone.
  now destruct (deliver listener after w1).
Qed.

(** C10: the rpi transport never calls back.  The listener that [on]
    registers for type ['rpi'] does nothing with the signal it receives,
    whatever the callback: no effect, no change of the world, for one signal
    and for any sequence of them through the engine's listener. *)
Theorem rpi_never_calls_back (callback : json -> W -> run W)
    (data : string) (w : W) :
  rf433mhz_on JSON_parse rpi callback data w = ([], w)
  /\ forall events : list string,
      deliver (rf433mhz_on JSON_parse rpi callback) events w = ([], w)
      /\ deliver (engine DEBUG JSON_parse rpi) events w = ([], w).
Proof.
  split; [reflexivity|].
  intros events. unfold engine.
  split; induction events as [|d events IH]; simpl; try reflexivity;
    now rewrite IH.
Qed.

(** C8: shutdown.  On SIGINT with no transport yet the handler exits at
    once.  With a transport it calls [close] and exits only from the callback
    it hands over: on the serial transport the port is closed, the outcome
    printed, then the process exits; the rpi transport's [close] never calls
    back, so the handler does not exit.  In every case an exit is preceded by
    the closing of the port and is the last thing done. *)
Theorem sigint_close_then_exit (w : W) :
  on_SIGINT None w = ([ConsoleLog [LS "Closing..."]; ProcessExit], w)
  /\ on_SIGINT (Some arduino) w =
       ([ConsoleLog [LS "Closing..."]; SerialClose;
         match fst (serial_close w) with
         | Some e => ConsoleError [LS "Error: "; LErr (Some e)]
         | None => ConsoleLog [LS "Serial Port closed."]
         end; ProcessExit], snd (serial_close w))
  /\ on_SIGINT (Some rpi) w = ([ConsoleLog [LS "Closing..."]], w)
  /\ forall (t : transport) (pre post : trace),
      fst (on_SIGINT (Some t) w) = pre ++ ProcessExit :: post ->
      In SerialClose pre /\ post = [].
Proof.
  split; [reflexivity|split; [|split; [reflexivity|]]].
  - unfold on_SIGINT, rf433mhz_close.
    now destruct (serial_close w) as [[e|] w'].
  - intros t pre post Hcut. destruct t; unfold on_SIGINT, rf433mhz_close in Hcut.
    + simpl in Hcut.
      destruct pre as [|e1 [|e2 pre]]; simpl in Hcut; try discriminate;
        injection Hcut as _ Hcut; destruct pre; discriminate.
    + destruct (serial_close w) as [err w']. simpl in Hcut.
      destruct pre as [|e1 [|e2 [|e3 [|e4 pre]]]]; simpl in Hcut;
        try (destruct err; discriminate).
      * inversion Hcut; subst. split; [simpl; auto|reflexivity].
      * exfalso. inversion Hcut as [[H1 H2 H3 H4 H5]]. destruct pre; discriminate.
Qed.

End Transport.

(** * When a store fails *)

Section StoreFailures.

Context {W : Type} {collab : Collaborators W}.
Variable DEBUG : bool.

(** A rejected upsert is printed and ends the run of that event. *)
Lemma upsert_rejected codeData (w w1 : W) err :
  received codeData = true ->
  putCodeInDB codeData w = (Rejected err, w1) ->
  effects (on_codeData DEBUG codeData w) =
    debug DEBUG [LS "RFcode received: "; LJ codeData]
      ++ [PutCodeInDB codeData; ConsoleError [LErr (Some err)]]
  /\ world (on_codeData DEBUG codeData w) = w1.
Proof.
  intros Hrec Hput. unfold on_codeData, effects, received in *.
  destruct (prop codeData "status") as [status|e]; [|discriminate].
  rewrite Hrec, Hput. simpl. rewrite <- app_assoc. auto.
Qed.

(** A rejected availability lookup is printed and ends the run of that
    event. *)
Lemma lookup_rejected codeData (w w1 w2 : W) mex err :
  received codeData = true ->
  putCodeInDB codeData w = (Resolved mex, w1) ->
  isCodeAvailable (code_of codeData) w1 = (Rejected err, w2) ->
  effects (on_codeData DEBUG codeData w) =
    debug DEBUG [LS "RFcode received: "; LJ codeData]
      ++ [PutCodeInDB codeData]
      ++ debug DEBUG [LS mex]
      ++ [IsCodeAvailable (code_of codeData); ConsoleError [LErr (Some err)]]
  /\ world (on_codeData DEBUG codeData w) = w2.
Proof.
  intros Hrec Hput Hask.
  destruct (received_object _ Hrec) as [fields ->].
  unfold received in Hrec. unfold code_of in *. simpl in Hrec, Hask.
  unfold on_codeData, effects, code_of. simpl. rewrite Hrec, Hput.
  unfold stored_then. simpl. rewrite Hask. simpl.
  rewrite <- app_assoc. auto.
Qed.

End StoreFailures.

(** The transport is of type ['rpi'] exactly on the rpi platform without an
    external Arduino. *)
Lemma transport_type_rpi (platform : string) (use_external_arduino : bool) :
  transport_type platform use_external_arduino = rpi
  <-> platform = "rpi" /\ use_external_arduino = false.
Proof.
  unfold transport_type.
  destruct (String.eqb_spec platform "rpi") as [->|Hne],
    use_external_arduino; simpl; split; intros H;
    try discriminate; try tauto; destruct H; congruence.
Qed.

(** * The listeners on the model of the collaborators *)

Section ModelFacts.

Import SpecModel.

Lemma Code_eqb_eq (a b : Code) : Code_eqb a b = true <-> a = b.
Proof.
  destruct a as [x|x], b as [y|y]; simpl; split; intros H;
    try discriminate; try congruence.
  - apply Z.eqb_eq in H. now subst.
  - injection H as ->. apply Z.eqb_refl.
  - apply String.eqb_eq in H. now subst.
  - injection H as ->. apply String.eqb_refl.
Qed.

Lemma matches_QCode (c : option Code) (d : RFCode) :
  matches (QCode c) d = true <-> c = Some (code d).
Proof.
  destruct c as [c|]; simpl.
  - rewrite Code_eqb_eq. split; congruence.
  - split; discriminate.
Qed.

(** The records the query of a switch card selects are those whose code is
    the card's [on_code] or its [off_code]. *)
Lemma matches_switch (card : Card) (d : RFCode) :
  type card = "switch" ->
  forall q, codes_to_remove card = Some q ->
  (matches q d = true <->
   on_code (device card) = Some (code d) \/ off_code (device card) = Some (code d)).
Proof.
  intros Ht q Hq. rewrite (codes_to_remove_switch card Ht) in Hq.
  injection Hq as <-.
  pose proof (matches_QCode (on_code (device card)) d) as Hon.
  pose proof (matches_QCode (off_code (device card)) d) as Hoff.
  cbn [matches existsb] in *.
  rewrite orb_false_r, orb_true_iff. tauto.
Qed.

(** The records the query of an alarm card selects are those whose code is
    the card's [trigger_code]. *)
Lemma matches_alarm (card : Card) (d : RFCode) :
  type card = "alarm" ->
  forall q, codes_to_remove card = Some q ->
  (matches q d = true <-> trigger_code (device card) = Some (code d)).
Proof.
  intros Ht q Hq. rewrite (codes_to_remove_alarm card Ht) in Hq.
  injection Hq as <-. apply matches_QCode.
Qed.

(** A removal that selects no record leaves the store as it is and reports
    a count of zero, without an error. *)
Lemma remove_nothing (q : query) (w : World) :
  (forall d, In d (RFCODES w) -> matches q d = false) ->
  model_RFCODES_remove q true w = ((None, Some 0), w).
Proof.
  intros Hnone. unfold model_RFCODES_remove, removeWhere.
  assert (Hkeep : filter (fun d => negb (matches q d)) (RFCODES w) = RFCODES w).
  { induction (RFCODES w) as [|d docs IH]; simpl; [reflexivity|].
    rewrite (Hnone d) by now left. simpl. f_equal.
    apply IH. intros d' Hd'. apply Hnone. now right. }
  rewrite Hkeep, Nat.sub_diag. now destruct w.
Qed.

(** Section 8, cascading delete: removing card S removes the records of
    111 and 222 and reports two. *)
Example remove_card_S :
  RFCODES (world (CARDS_on_removed unlink_answers_first card_S (home false)))
    = [mkRFCode (CNum 555) 3 3 false]
  /\ later (CARDS_on_removed unlink_answers_first card_S (home false))
     = [ConsoleError [LS "DeleteFile: file not found"; LPath "ENOENT"];
        ConsoleLog [LCount (Some 2); LS " code/s deleted."]].
Proof. split; reflexivity. Qed.

(** Section 8, alarm gating: card A armed and code 555. *)
Example alarm_armed :
  filter (fun e => is_emit e || is_alarm_advise e)
         (effects (on_codeData false (event 555 "received") (home true)))
    = [IoEmit "uiTriggerAlarm" (PCard (card_A true)); AlarmAdviseAll (card_A true)].
Proof. reflexivity. Qed.

(** Section 8, alarm gating: card A not armed and code 555. *)
Example alarm_not_armed :
  filter (fun e => is_emit e || is_alarm_advise e)
         (effects (on_codeData false (event 555 "received") (home false)))
    = [IoEmit "uiTriggerAlarm" (PCard (card_A false))].
Proof. reflexivity. Qed.

(** A line holding [null] parses, and the listener throws on reading its
    status: the serial listener prints it as a parse error. *)
Example null_line :
  fst (engine true parse_literal arduino "null" (home false))
    = [ConsoleLog [LS "RFcode received: "; LJ JNull];
       ConsoleLog [LS "Error parsing this JSON: "; LS "null"]].
Proof. reflexivity. Qed.

End ModelFacts.

(** * The theorems at concrete inputs *)

Import SpecModel.

Lemma alarm_gating_witness :
  filter is_emit
    (effects (on_codeData false (SpecModel.event 555 "received")
                          (SpecModel.home true)))
    = [IoEmit "uiTriggerAlarm" (PCard (SpecModel.card_A true))]
  /\ In (AlarmAdviseAll (SpecModel.card_A true))
        (effects (on_codeData false (SpecModel.event 555 "received")
                              (SpecModel.home true))).
Proof.
  pose proof (@alarm_gating SpecModel.World SpecModel.model false
                (SpecModel.event 555 "received") (SpecModel.home true)
                _ _ _ _ _ _
                eq_refl eq_refl eq_refl eq_refl eq_refl) as (Hemit & _ & Harmed).
  split; [exact Hemit|]. apply Harmed. reflexivity.
Defined.

Lemma code_detected_once_witness :
  filter is_code_detected
    (effects (on_codeData true (SpecModel.event 999 "received")
                          (SpecModel.home false)))
    = [WebHookCodeDetected (SpecModel.event 999 "received")].
Proof.
  exact (@code_detected_once SpecModel.World SpecModel.model true
           (SpecModel.event 999 "received") (SpecModel.home false)
           _ _ _ _ eq_refl eq_refl eq_refl).
Defined.

Lemma available_broadcast_witness :
  filter is_emit
    (effects (on_codeData false (SpecModel.event 999 "received")
                          (SpecModel.home false)))
    = [IoEmit "newRFCode" (PCode (SpecModel.event 999 "received"))]
  /\ filter is_alarm_lookup
       (effects (on_codeData false (SpecModel.event 999 "received")
                             (SpecModel.home false))) = [].
Proof.
  pose proof (@available_broadcast SpecModel.World SpecModel.model false
                (SpecModel.event 999 "received") (SpecModel.home false)
                _ _ _ _ eq_refl eq_refl eq_refl eq_refl) as (_ & Hemit & Hno & _).
  split; assumption.
Defined.

Lemma code_detected_despite_alarm_witness :
  filter is_code_detected
    (effects (on_codeData false (SpecModel.event 111 "received")
                          (SpecModel.home false)))
    = [WebHookCodeDetected (SpecModel.event 111 "received")].
Proof.
  pose proof (@code_detected_despite_alarm SpecModel.World SpecModel.model false
                (SpecModel.event 111 "received") (SpecModel.home false)
                _ _ _ _ _ _
                eq_refl eq_refl eq_refl eq_refl eq_refl) as (_ & Honce & _).
  exact Honce.
Defined.

Lemma malformed_payload_dropped_witness :
  SpecModel.parse_literal "{code:" = None
  /\ rf433mhz_on SpecModel.parse_literal arduino (on_codeData true) "{code:"
                 (SpecModel.home false)
     = ([ConsoleLog [LS "Error parsing this JSON: "; LS "{code:"]],
        SpecModel.home false).
Proof.
  split; [reflexivity|].
  exact (proj1 (@malformed_payload_dropped SpecModel.World
                  SpecModel.parse_literal (on_codeData true) "{code:"
                  (SpecModel.home false) eq_refl)).
Defined.

Lemma removed_card_codes_witness :
  codes_to_remove card_B = Some (QCode (Some (CNum 777)))
  /\ later (CARDS_on_removed unlink_answers_first card_B (home false))
     = [ConsoleLog [LCount (Some 0); LS " code/s deleted."]].
Proof.
  destruct (@removed_card_codes World model unlink_answers_first card_B (home false))
    as (_ & _ & Halarm & _ & _ & Hzero).
  split; [exact (Halarm eq_refl)|].
  exact (proj1 (proj2 (Hzero (QCode (Some (CNum 777))) (home false)
                         eq_refl eq_refl))).
Defined.

Lemma status_guard_witness :
  In (PutCodeInDB (event 111 "received"))
     (effects (on_codeData true (event 111 "received") (home false)))
  /\ filter (fun e => negb (is_console e))
            (effects (on_codeData true (event 999 "received") (home false)))
     = [PutCodeInDB (event 999 "received"); IsCodeAvailable (Some (JNum 999));
        IoEmit "newRFCode" (PCode (event 999 "received"));
        WebHookCodeDetected (event 999 "received")]
  /\ world (on_codeData true (event 111 "sent") (home false)) = home false
  /\ effects (on_codeData true (event 111 "sent") (home false))
     = [ConsoleLog [LS "RFcode received: "; LJ (event 111 "sent")]].
Proof.
  split; [|split].
  - exact (proj2 (proj1 (@status_guard World model true
                           (event 111 "received") (home false))) eq_refl).
  - destruct (@status_guard World model true (event 999 "received")
                (home false)) as (_ & _ & Hrun & _).
    destruct (Hrun eq_refl _ _ eq_refl) as (_ & Hnotify).
    destruct (Hnotify _ _ eq_refl) as (Heff & _).
    rewrite Heff. reflexivity.
  - destruct (@status_guard World model true (event 111 "sent") (home false))
      as (_ & _ & _ & Hother & _).
    destruct (Hother eq_refl) as (Hworld & Heffects & _).
    split; [exact Hworld|exact Heffects].
Defined.

Lemma cards_changed_signal_witness :
  later (CARDS_on_removed unlink_answers_first card_S (home false))
  = [ConsoleError [LS "DeleteFile: file not found"; LPath "ENOENT"];
     ConsoleLog [LCount (Some 2); LS " code/s deleted."]]
  /\ filter is_cards_changed
       (effects (CARDS_on_removed unlink_answers_first card_S (home false)))
     = [AsyncEmitInitCards].
Proof.
  destruct (@cards_changed_signal World model unlink_answers_first card_S (home false))
    as (_ & _ & Hsignal & _ & Hfail).
  split; [|exact Hsignal].
  exact (proj1 (proj2 (Hfail "uploads/s.png" "ENOENT" _ eq_refl eq_refl))).
Defined.

Lemma sigint_close_then_exit_witness :
  fst (on_SIGINT (Some arduino) (home false))
  = [ConsoleLog [LS "Closing..."]; SerialClose;
     ConsoleLog [LS "Serial Port closed."]] ++ [ProcessExit]
  /\ In SerialClose
        [ConsoleLog [LS "Closing..."]; SerialClose;
         ConsoleLog [LS "Serial Port closed."]].
Proof.
  destruct (@sigint_close_then_exit World model (home false))
    as (_ & _ & _ & Horder).
  split; [reflexivity|].
  exact (proj1 (Horder arduino
                  [ConsoleLog [LS "Closing..."]; SerialClose;
                   ConsoleLog [LS "Serial Port closed."]] [] eq_refl)).
Defined.

(** * More on the code-event listener *)

Section MoreCodeEvents.

Context {W : Type} {collab : Collaborators W}.
Variable DEBUG : bool.
Variable JSON_parse : string -> option json.

Lemma filter_none_in (p : effect -> bool) (t : trace) (e : effect) :
  filter p t = [] -> In e t -> p e = false.
Proof.
  intros Hnone Hin. destruct (p e) eqn:He; [|reflexivity].
  assert (Hf : In e (filter p t)) by (apply filter_In; auto).
  rewrite Hnone in Hf. destruct Hf.
Qed.

(** An effect selected by [p] in [before ++ rest] lies in [rest] when
    [before] holds none. *)
Lemma cut_after (p : effect -> bool) (before rest pre post : trace) (e : effect) :
  filter p before = [] -> p e = true ->
  before ++ rest = pre ++ e :: post ->
  exists mid, pre = before ++ mid.
Proof.
  revert pre. induction before as [|b before IH]; intros pre Hnone He Hcut.
  - now exists pre.
  - simpl in Hnone. destruct (p b) eqn:Hb; [discriminate|].
    destruct pre as [|x pre]; simpl in Hcut.
    + injection Hcut as -> _. congruence.
    + injection Hcut as -> Hcut.
      destruct (IH pre Hnone He Hcut) as [mid ->]. now exists mid.
Qed.

Lemma no_cut (p : effect -> bool) (t pre post : trace) (e : effect) :
  filter p t = [] -> p e = true -> t <> pre ++ e :: post.
Proof.
  intros Hnone He Hcut.
  assert (Hin : In e t) by (rewrite Hcut; apply in_or_app; right; now left).
  rewrite (filter_none_in p t e Hnone Hin) in He. discriminate.
Qed.

Lemma filter_alarm_then_console (r : settled (option Card)) :
  filter silent (alarm_then r) =
    match r with
    | Resolved (Some card) =>
        IoEmit "uiTriggerAlarm" (PCard card)
          :: (if armed (device card) then [AlarmAdviseAll card] else [])
    | _ => []
    end.
Proof.
  destruct r as [[card|]|err]; simpl; try reflexivity.
  destruct (armed (device card)); reflexivity.
Qed.

(** X1: the code-detected webhook is called exactly when the event has
    status ['received'] and both the upsert and the availability lookup
    resolve, and then once, with the raw event; in every other run it is
    not called at all. *)
Theorem code_detected_exactly_when_resolved codeData (w : W) :
  filter is_code_detected (effects (on_codeData DEBUG codeData w)) =
    if resolves codeData w then [WebHookCodeDetected codeData] else [].
Proof.
  unfold resolves. destruct (received codeData) eqn:Hrec; simpl.
  - destruct (putCodeInDB codeData w) as [[mex|err] w1] eqn:Hput.
    + destruct (isCodeAvailable (code_of codeData) w1) as [[result|err] w2] eqn:Hask.
      * destruct (on_codeData_resolved DEBUG codeData w w1 w2 mex result
                    Hrec Hput Hask) as (-> & _ & _).
        rewrite filter_app, filter_upto_resolved by reflexivity.
        destruct (isAvailable result); simpl; [reflexivity|].
        now rewrite filter_alarm_then_detected.
      * destruct (lookup_rejected DEBUG codeData w w1 w2 mex err
                    Hrec Hput Hask) as (-> & _).
        rewrite !filter_app, !filter_debug by reflexivity. reflexivity.
    + destruct (upsert_rejected DEBUG codeData w w1 err Hrec Hput) as (-> & _).
      rewrite !filter_app, !filter_debug by reflexivity. reflexivity.
  - destruct (on_codeData_ignored DEBUG codeData w Hrec) as (-> & _).
    now apply filter_debug.
Qed.

(** X2: nothing is emitted, advised or dispatched, and no alarm is looked
    up, before the code has been handed to the store and its availability
    asked: in every run, whatever the collaborators answer, such an effect
    comes after the [putCodeInDB] call and the [isCodeAvailable] call. *)
Theorem outcome_after_store codeData (w : W) (pre post : trace) (e : effect) :
  effects (on_codeData DEBUG codeData w) = pre ++ e :: post ->
  is_outcome e = true ->
  In (PutCodeInDB codeData) pre /\ In (IsCodeAvailable (code_of codeData)) pre.
Proof.
  intros Hcut He.
  destruct (received codeData) eqn:Hrec.
  - destruct (putCodeInDB codeData w) as [[mex|err] w1] eqn:Hput.
    + destruct (isCodeAvailable (code_of codeData) w1) as [[result|err] w2] eqn:Hask.
      * destruct (on_codeData_resolved DEBUG codeData w w1 w2 mex result
                    Hrec Hput Hask) as (Heff & _ & _).
        rewrite Heff in Hcut.
        destruct (cut_after is_outcome _ _ _ _ _
                    (filter_upto_resolved DEBUG is_outcome codeData mex result
                       (fun _ => eq_refl) eq_refl eq_refl) He Hcut) as [mid ->].
        unfold upto_resolved.
        split; apply in_or_app; left; apply in_or_app; right; simpl.
        -- now left.
        -- right. apply in_or_app. right. simpl. now left.
      * exfalso.
        destruct (lookup_rejected DEBUG codeData w w1 w2 mex err
                    Hrec Hput Hask) as (Heff & _).
        rewrite Heff in Hcut. revert Hcut. apply no_cut with (p := is_outcome); trivial.
        rewrite !filter_app, !filter_debug by reflexivity. reflexivity.
    + exfalso.
      destruct (upsert_rejected DEBUG codeData w w1 err Hrec Hput) as (Heff & _).
      rewrite Heff in Hcut. revert Hcut. apply no_cut with (p := is_outcome); trivial.
      rewrite !filter_app, !filter_debug by reflexivity. reflexivity.
  - exfalso.
    destruct (on_codeData_ignored DEBUG codeData w Hrec) as (Heff & _).
    rewrite Heff in Hcut. revert Hcut. apply no_cut with (p := is_outcome); trivial.
    now apply filter_debug.
Qed.

(** X3: when the upsert is rejected the error is printed with
    [console.error] and the event goes no further: the availability is not
    asked, nothing is emitted or dispatched, and the world is the one the
    failed upsert left. *)
Theorem upsert_failure_stops codeData (w w1 : W) err :
  received codeData = true ->
  putCodeInDB codeData w = (Rejected err, w1) ->
  filter silent (effects (on_codeData DEBUG codeData w)) = [PutCodeInDB codeData]
  /\ filter is_console (later (on_codeData DEBUG codeData w))
       = [ConsoleError [LErr (Some err)]]
  /\ world (on_codeData DEBUG codeData w) = w1
  /\ thrown (on_codeData DEBUG codeData w) = None.
Proof.
  intros Hrec Hput.
  destruct (upsert_rejected DEBUG codeData w w1 err Hrec Hput) as (Heff & Hw).
  rewrite Heff, Hw. unfold on_codeData, received in *.
  destruct (prop codeData "status") as [status|e]; [|discriminate].
  rewrite Hrec, Hput. simpl.
  rewrite filter_app, filter_debug by reflexivity. auto.
Qed.

(** X4: when the availability lookup is rejected the error is printed with
    [console.error] and the event goes no further: no alarm lookup, no
    emission, no webhook; the code has been stored all the same. *)
Theorem lookup_failure_stops codeData (w w1 w2 : W) mex err :
  received codeData = true ->
  putCodeInDB codeData w = (Resolved mex, w1) ->
  isCodeAvailable (code_of codeData) w1 = (Rejected err, w2) ->
  filter silent (effects (on_codeData DEBUG codeData w))
    = [PutCodeInDB codeData; IsCodeAvailable (code_of codeData)]
  /\ filter is_outcome (effects (on_codeData DEBUG codeData w)) = []
  /\ In (ConsoleError [LErr (Some err)]) (later (on_codeData DEBUG codeData w))
  /\ world (on_codeData DEBUG codeData w) = w2.
Proof.
  intros Hrec Hput Hask.
  destruct (lookup_rejected DEBUG codeData w w1 w2 mex err Hrec Hput Hask)
    as (Heff & Hw).
  rewrite Heff, Hw.
  rewrite !filter_app, !filter_debug by reflexivity.
  repeat split; try reflexivity.
  destruct (received_object _ Hrec) as [fields ->].
  unfold received in Hrec. unfold code_of in *. simpl in Hrec, Hask.
  unfold on_codeData. simpl. rewrite Hrec, Hput.
  unfold stored_then. simpl. rewrite Hask. simpl.
  apply in_or_app. right. simpl. auto.
Qed.

(** X5: in the not-available branch the alarm lookup is called once, with
    whatever [result.assignedTo] is, also when no card is named; when the
    lookup resolves with no card (the code is ignored, or belongs to a card
    that is not an alarm) nothing is emitted to the live clients and
    [alarmAdviseAll] is not called. *)
Theorem unavailable_looks_up_alarm codeData (w w1 w2 w3 : W) mex result r :
  received codeData = true ->
  putCodeInDB codeData w = (Resolved mex, w1) ->
  isCodeAvailable (code_of codeData) w1 = (Resolved result, w2) ->
  isAvailable result = false ->
  alarmTriggered (assignedTo result) "alarm" w2 = (r, w3) ->
  filter is_alarm_lookup (effects (on_codeData DEBUG codeData w))
    = [AlarmTriggered (assignedTo result) "alarm"]
  /\ world (on_codeData DEBUG codeData w) = w3
  /\ (r = Resolved None ->
      filter silent (effects (on_codeData DEBUG codeData w))
        = [PutCodeInDB codeData; IsCodeAvailable (code_of codeData);
           AlarmTriggered (assignedTo result) "alarm";
           WebHookCodeDetected codeData]).
Proof.
  intros Hrec Hput Hask Hno Halarm.
  destruct (on_codeData_resolved DEBUG codeData w w1 w2 mex result
              Hrec Hput Hask) as (-> & -> & _).
  rewrite Hno, Halarm. simpl fst. simpl snd.
  split; [|split; [reflexivity|]].
  - rewrite filter_app, filter_upto_resolved by reflexivity. simpl.
    destruct r as [[card|]|e]; simpl; try reflexivity.
    destruct (armed (device card)); reflexivity.
  - intros ->. unfold upto_resolved.
    rewrite !filter_app, !filter_debug by reflexivity. reflexivity.
Qed.

(** X6: [config.DEBUG] changes only what is printed: with it on or off the
    listener makes the same calls in the same order, throws or not alike,
    and leaves the same world. *)
Theorem debug_only_prints codeData (w : W) :
  filter silent (effects (on_codeData DEBUG codeData w))
    = filter silent (effects (on_codeData false codeData w))
  /\ world (on_codeData DEBUG codeData w) = world (on_codeData false codeData w)
  /\ thrown (on_codeData DEBUG codeData w) = thrown (on_codeData false codeData w).
Proof.
  unfold on_codeData, stored_then, available_then, effects, debug.
  destruct DEBUG; [|auto].
  destruct (prop codeData "status") as [status|e]; [|simpl; auto].
  destruct (is_received status); [|simpl; auto].
  destruct (putCodeInDB codeData w) as [[mex|err] w1]; [|simpl; auto].
  destruct (prop codeData "code") as [c|e]; [|simpl; auto].
  destruct (isCodeAvailable c w1) as [[result|err] w2]; [|simpl; auto].
  destruct (isAvailable result); [simpl; auto|].
  destruct (alarmTriggered (assignedTo result) "alarm" w2) as [r w3].
  simpl. auto.
Qed.

Lemma engine_ignores (t : transport) (line : string) (w : W) :
  (forall v, JSON_parse line = Some v -> received v = false) ->
  snd (engine DEBUG JSON_parse t line w) = w
  /\ filter silent (fst (engine DEBUG JSON_parse t line w)) = [].
Proof.
  intros Hnot. unfold engine, rf433mhz_on. destruct t; [auto|].
  destruct (JSON_parse line) as [v|] eqn:Hparse; [|auto].
  destruct (on_codeData_ignored DEBUG v w (Hnot v eq_refl)) as (Heff & Hw).
  assert (Hsilent : filter silent (sync (on_codeData DEBUG v w)) = []
                    /\ filter silent (later (on_codeData DEBUG v w)) = []).
  { assert (H : filter silent (effects (on_codeData DEBUG v w)) = [])
      by (rewrite Heff; now apply filter_debug).
    unfold effects in H. rewrite filter_app in H.
    now apply app_eq_nil in H. }
  destruct Hsilent as [Hs Hl].
  destruct (thrown (on_codeData DEBUG v w)); simpl;
    rewrite ?filter_app, ?Hs, ?Hl; auto.
Qed.

(** X7: lines that hold no ['received'] event, however many and whether
    they parse or not, leave the world as it was and lead to no call at
    all: only console output. *)
Theorem idle_lines_change_nothing (t : transport) (lines : list string) (w : W) :
  (forall line v, In line lines -> JSON_parse line = Some v ->
                  received v = false) ->
  snd (deliver (engine DEBUG JSON_parse t) lines w) = w
  /\ filter silent (fst (deliver (engine DEBUG JSON_parse t) lines w)) = [].
Proof.
  revert w. induction lines as [|line lines IH]; intros w Hnot; [simpl; auto|].
  simpl.
  destruct (engine_ignores t line w (fun v => Hnot line v (or_introl eq_refl)))
    as [Hw Hs].
  destruct (engine DEBUG JSON_parse t line w) as [t1 w1]. simpl in Hw, Hs. subst w1.
  destruct (IH w (fun l v H => Hnot l v (or_intror H))) as [Hw' Hs'].
  destruct (deliver (engine DEBUG JSON_parse t) lines w) as [t2 w2].
  simpl in *. rewrite filter_app, Hs, Hs'. auto.
Qed.

(** X8: a serial line that is valid JSON but not an object never reaches the
    store.  A number, string, boolean or array is dropped after the debug
    line; [null] makes the listener throw on reading its status, which the
    serial handler catches and prints as a parse error. *)
Theorem non_object_line (line : string) (v : json) (w : W) :
  JSON_parse line = Some v ->
  (forall fields, v <> JObj fields) ->
  engine DEBUG JSON_parse arduino line w =
    (debug DEBUG [LS "RFcode received: "; LJ v]
       ++ match v with
          | JNull => [ConsoleLog [LS "Error parsing this JSON: "; LS line]]
          | _ => []
          end,
     w).
Proof.
  intros Hparse Hobj. unfold engine, rf433mhz_on. rewrite Hparse.
  destruct v; simpl; rewrite ?app_nil_r; try reflexivity.
  now destruct (Hobj fields).
Qed.

End MoreCodeEvents.

(** * The platform module and the starting flow *)

Section PlatformFacts.

Variable DEBUG : bool.
Variable use_external_arduino : bool.
Variable trim : string -> string.

(** An answer the prompt accepts indexes a port of the list. *)
Lemma conform_in_bounds (comNames : list string) (answer : Z) :
  conform comNames answer = true ->
  exists comName,
    js_index comNames (answer - 1) = Some comName /\ In comName comNames.
Proof.
  unfold conform, js_index. intros H.
  apply andb_true_iff in H. destruct H as [Hpos Hle].
  apply Z.ltb_lt in Hpos. apply Z.leb_le in Hle.
  destruct (answer - 1 <? 0)%Z eqn:Hneg; [apply Z.ltb_lt in Hneg; lia|].
  destruct (nth_error comNames (Z.to_nat (answer - 1))) as [comName|] eqn:Hnth.
  - exists comName. split; [reflexivity|]. eapply nth_error_In; eassumption.
  - apply nth_error_None in Hnth. lia.
Qed.

Lemma list_ports_nth (comNames : list string) (k i : nat) (comName : string) :
  nth_error comNames i = Some comName ->
  In (say [LS "("; LCount (Some (k + i)); LS ") "; LS comName])
     (list_ports k comNames).
Proof.
  revert k i. induction comNames as [|c comNames IH]; intros k i Hnth.
  - destruct i; discriminate.
  - destruct i as [|i]; simpl in *.
    + injection Hnth as ->. left. now rewrite Nat.add_0_r.
    + right. rewrite <- Nat.add_succ_comm. now apply IH.
Qed.

Lemma list_ports_prints (p : action -> bool) (k : nat) (comNames : list string) :
  (forall args, p (say args) = false) ->
  filter p (list_ports k comNames) = [].
Proof.
  intros Hsay. revert k.
  induction comNames as [|c comNames IH]; intros k; simpl; [reflexivity|].
  now rewrite Hsay, IH.
Qed.

(** What [choose_port] does is printing, listing and prompting, apart from
    an uncaught exception. *)
Lemma choose_port_actions (p : action -> bool) (whatToUse : string)
    (env : Startup) :
  (forall e, p (Out e) = false) -> p ListPorts = false -> p PromptGet = false ->
  (forall e, p (Uncaught e) = false) ->
  filter p (fst (choose_port trim whatToUse env)) = [].
Proof.
  intros Hout Hlist Hprompt Hthrow. unfold choose_port.
  destruct (ports env) as [|c comNames] eqn:Hports.
  - simpl. unfold say. now rewrite Hlist, Hout.
  - assert (Hlisting : filter p (ListPorts :: say [LS "Selectable serial ports:"]
                                   :: list_ports 1 (c :: comNames)) = []).
    { simpl. unfold say. rewrite Hlist, !Hout.
      apply list_ports_prints. intros args. apply Hout. }
    destruct (given (argv_serialport env)); [exact Hlisting|].
    destruct (find (conform (c :: comNames)) (typed env)) as [answer|].
    + destruct (js_index (c :: comNames) (answer - 1)); cbn [fst];
        rewrite filter_app, Hlisting; simpl; unfold say;
        rewrite Hprompt, ?Hout, ?Hthrow; reflexivity.
    + cbn [fst]. rewrite filter_app, Hlisting. simpl.
      now rewrite Hprompt, Hout.
Qed.

(** With the ports listed and whole-number answers nothing is thrown. *)
Lemma choose_port_never_throws (whatToUse : string) (env : Startup) :
  filter is_uncaught (fst (choose_port trim whatToUse env)) = [].
Proof.
  unfold choose_port.
  destruct (ports env) as [|c comNames]; [reflexivity|].
  assert (Hlisting : filter is_uncaught
                       (ListPorts :: say [LS "Selectable serial ports:"]
                          :: list_ports 1 (c :: comNames)) = []).
  { change (filter is_uncaught (list_ports 1 (c :: comNames)) = []).
    apply list_ports_prints. reflexivity. }
  destruct (given (argv_serialport env)); [exact Hlisting|].
  destruct (find (conform (c :: comNames)) (typed env)) as [answer|] eqn:Hfind.
  - apply find_some in Hfind. destruct Hfind as [_ Hok].
    destruct (conform_in_bounds _ _ Hok) as (comName & -> & _).
    cbn [fst]. rewrite filter_app, Hlisting. reflexivity.
  - cbn [fst]. rewrite filter_app, Hlisting. reflexivity.
Qed.

Lemma choose_port_board (whatToUse : string) (env : Startup) (b : Board) :
  snd (choose_port trim whatToUse env) = Some b ->
  platform b = whatToUse
  /\ ports env <> []
  /\ match given (argv_serialport env) with
     | Some serialport => port b = trim serialport
     | None => In (port b) (ports env)
     end.
Proof.
  unfold choose_port.
  destruct (ports env) as [|c comNames]; [discriminate|].
  destruct (given (argv_serialport env)) as [serialport|].
  - simpl. intros [= <-]. repeat split; discriminate || reflexivity.
  - destruct (find (conform (c :: comNames)) (typed env)) as [answer|] eqn:Hfind;
      [|discriminate].
    apply find_some in Hfind. destruct Hfind as [_ Hok].
    destruct (conform_in_bounds _ _ Hok) as (comName & Hidx & Hin).
    rewrite Hidx. cbn [snd]. intros [= <-].
    repeat split; [discriminate|exact Hin].
Qed.

Lemma conform_number_whole (comNames : list string) (v : number) (z : Z) :
  conform_number comNames v = true ->
  whole (QArith_base.Qminus v (QArith_base.inject_Z 1)) = Some z ->
  exists comName, js_index comNames z = Some comName /\ In comName comNames.
Proof.
  destruct v as [n d].
  unfold conform_number, whole, QArith_base.Qle_bool, QArith_base.Qminus,
    QArith_base.Qplus, QArith_base.Qopp, QArith_base.inject_Z.
  cbn [QArith_base.Qnum QArith_base.Qden].
  rewrite Pos.mul_1_r, !Z.mul_1_r. intros Hok Hwhole.
  apply andb_true_iff in Hok. destruct Hok as [Hpos Hle].
  apply negb_true_iff, Z.leb_gt in Hpos. apply Z.leb_le in Hle.
  assert (Hdiv : (n + - (1) * Z.pos d = Z.pos d * z)%Z).
  { match type of Hwhole with
    | (if (?a mod ?b =? 0)%Z then Some ?q else _) = _ =>
        assert (Hexact : (a mod b =? 0)%Z = true -> a = (b * q)%Z)
          by (intros H; apply Z.eqb_eq in H;
              apply (Z.div_exact a b); [lia|exact H]);
        destruct (a mod b =? 0)%Z; [|discriminate];
        specialize (Hexact eq_refl);
        assert (Hq : q = z) by congruence;
        rewrite Hq in Hexact; exact Hexact
    end. }
  assert (Hz : (0 <= z < Z.of_nat (List.length comNames))%Z) by nia.
  unfold js_index.
  destruct (z <? 0)%Z eqn:Hneg; [apply Z.ltb_lt in Hneg; lia|].
  destruct (nth_error comNames (Z.to_nat z)) as [comName|] eqn:Hnth.
  - exists comName. split; [reflexivity|]. eapply nth_error_In; eassumption.
  - apply nth_error_None in Hnth. lia.
Qed.

Lemma conform_number_inject (comNames : list string) (z : Z) :
  conform_number comNames (QArith_base.inject_Z z) = conform comNames z.
Proof.
  unfold conform_number, conform, QArith_base.Qle_bool, QArith_base.inject_Z.
  cbn [QArith_base.Qnum QArith_base.Qden].
  rewrite !Z.mul_1_r. f_equal.
  rewrite Z.ltb_antisym. reflexivity.
Qed.

Lemma js_index_number_inject (comNames : list string) (z : Z) :
  js_index_number comNames
    (QArith_base.Qminus (QArith_base.inject_Z z) (QArith_base.inject_Z 1))
  = js_index comNames (z - 1).
Proof.
  unfold js_index_number, whole, QArith_base.Qminus, QArith_base.Qplus,
    QArith_base.Qopp, QArith_base.inject_Z.
  cbn [QArith_base.Qnum QArith_base.Qden Pos.mul].
  rewrite Z.mod_1_r, Z.div_1_r. cbn [Z.eqb].
  f_equal. lia.
Qed.

Lemma find_conform_inject (comNames : list string) (answers : list Z) :
  find (conform_number comNames) (map QArith_base.inject_Z answers)
  = option_map QArith_base.inject_Z (find (conform comNames) answers).
Proof.
  induction answers as [|z answers IH]; [reflexivity|].
  cbn [map find]. rewrite conform_number_inject.
  destruct (conform comNames z); [reflexivity|exact IH].
Qed.

(** On whole-number answers and a list of ports, [choose_port_numbers] is
    [choose_port]. *)
Lemma choose_port_numbers_whole (whatToUse : string) (env : Startup) :
  choose_port_numbers trim whatToUse (Some (ports env)) (argv_serialport env)
    (map QArith_base.inject_Z (typed env)) (prompt_error env)
  = choose_port trim whatToUse env.
Proof.
  unfold choose_port_numbers, choose_port.
  destruct (ports env) as [|c comNames]; [reflexivity|].
  destruct (given (argv_serialport env)); [reflexivity|].
  rewrite find_conform_inject.
  destruct (find (conform (c :: comNames)) (typed env)) as [answer|];
    [|reflexivity].
  cbn [option_map]. now rewrite js_index_number_inject.
Qed.

(** X9: the port handed to the transport, and when [choose_port] throws.
    [choose_port] throws in exactly two cases: [serialPort.list] called back
    without ports, or, with no [--serialport], the first number the prompt's
    check accepts ([value > 0 && value <= ports.length]) is not whole, so that
    [ports[result.port-1]] is undefined.  When it makes a board, the board's
    platform is the argument it was called with, the list was not empty, and
    the port is the trimmed [--serialport] argument, taken as it is, or else
    one of the listed ports.  On whole-number answers it is the function
    [choose_port] of the starting flow. *)
Theorem choose_port_picks_listed (whatToUse : string)
    (listed : option (list string)) (serialport : option string)
    (answers : list number) (cancel : Err) :
  (filter is_uncaught
     (fst (choose_port_numbers trim whatToUse listed serialport answers cancel))
     <> []
   <-> listed = None
       \/ exists comNames answer,
            listed = Some comNames /\ comNames <> []
            /\ given serialport = None
            /\ find (conform_number comNames) answers = Some answer
            /\ whole (QArith_base.Qminus answer (QArith_base.inject_Z 1)) = None)
  /\ (forall b : Board,
      snd (choose_port_numbers trim whatToUse listed serialport answers cancel)
        = Some b ->
      platform b = whatToUse
      /\ exists comNames,
           listed = Some comNames /\ comNames <> []
           /\ match given serialport with
              | Some arg => port b = trim arg
              | None => In (port b) comNames
              end)
  /\ (forall env : Startup,
      choose_port_numbers trim whatToUse (Some (ports env))
        (argv_serialport env) (map QArith_base.inject_Z (typed env))
        (prompt_error env)
      = choose_port trim whatToUse env).
Proof.
  split; [|split; [|intros env; apply choose_port_numbers_whole]].
  - unfold choose_port_numbers.
    destruct listed as [[|c comNames]|].
    + split; [intros H; now destruct H|].
      intros [H|(comNames & answer & [= <-] & Hne & _)];
        [discriminate|now destruct Hne].
    + assert (Hlisting : filter is_uncaught
                           (ListPorts :: say [LS "Selectable serial ports:"]
                              :: list_ports 1 (c :: comNames)) = []).
      { change (filter is_uncaught (list_ports 1 (c :: comNames)) = []).
        apply list_ports_prints. reflexivity. }
      destruct (given serialport) as [arg|].
      { split; [intros H; now destruct H|].
        intros [H|(? & ? & _ & _ & H & _)]; discriminate. }
      destruct (find (conform_number (c :: comNames)) answers)
        as [answer|] eqn:Hfind.
      * destruct (find_some _ _ Hfind) as [_ Hok].
        unfold js_index_number.
        destruct (whole (QArith_base.Qminus answer (QArith_base.inject_Z 1)))
          as [z|] eqn:Hwhole.
        -- destruct (conform_number_whole _ _ _ Hok Hwhole)
             as (comName & -> & _).
           cbn [fst]. rewrite filter_app, Hlisting.
           split; [intros H; now destruct H|].
           intros [H|(cs & a & [= <-] & _ & _ & Hfound & Hnone)];
             [discriminate|].
           rewrite Hfind in Hfound. injection Hfound as <-. congruence.
        -- cbn [fst]. rewrite filter_app, Hlisting.
           split; [|intros _; discriminate].
           intros _. right. exists (c :: comNames), answer.
           repeat split; trivial; discriminate.
      * cbn [fst]. rewrite filter_app, Hlisting.
        split; [intros H; now destruct H|].
        intros [H|(cs & a & [= <-] & _ & _ & Hfound & _)]; [discriminate|].
        rewrite Hfind in Hfound. discriminate.
    + split; [intros _; now left|intros _; discriminate].
  - intros b. unfold choose_port_numbers.
    destruct listed as [[|c comNames]|]; try discriminate.
    destruct (given serialport) as [arg|].
    + intros [= <-]. split; [reflexivity|].
      exists (c :: comNames). repeat split; discriminate || reflexivity.
    + destruct (find (conform_number (c :: comNames)) answers)
        as [answer|] eqn:Hfind; [|discriminate].
      apply find_some in Hfind. destruct Hfind as [_ Hok].
      unfold js_index_number.
      destruct (whole (QArith_base.Qminus answer (QArith_base.inject_Z 1)))
        as [z|] eqn:Hwhole; [|discriminate].
      destruct (conform_number_whole _ _ _ Hok Hwhole)
        as (comName & Hidx & Hin).
      rewrite Hidx. intros [= <-]. split; [reflexivity|].
      exists (c :: comNames). repeat split; [discriminate|exact Hin].
Qed.

(** X10: the number printed beside a port is the number that selects it.
    The list shows the port at position [i] (from 0) as [(i+1) comName], and
    without [--serialport] typing [i+1] first makes the board with exactly
    that port. *)
Theorem number_selects_port (whatToUse : string) (env : Startup) (i : nat)
    (comName : string) (rest : list Z) :
  nth_error (ports env) i = Some comName ->
  In (say [LS "("; LCount (Some (S i)); LS ") "; LS comName])
     (fst (choose_port trim whatToUse env))
  /\ (given (argv_serialport env) = None ->
      typed env = Z.of_nat (S i) :: rest ->
      snd (choose_port trim whatToUse env) = Some (mkBoard whatToUse comName)).
Proof.
  intros Hnth.
  pose proof (list_ports_nth (ports env) 1 i comName Hnth) as Hshown.
  assert (Hlt : i < List.length (ports env))
    by (apply nth_error_Some; congruence).
  unfold choose_port.
  destruct (ports env) as [|c comNames] eqn:Hports; [destruct i; discriminate|].
  split.
  - assert (Hin : In (say [LS "("; LCount (Some (S i)); LS ") "; LS comName])
                     (ListPorts :: say [LS "Selectable serial ports:"]
                        :: list_ports 1 (c :: comNames)))
      by (right; right; exact Hshown).
    destruct (given (argv_serialport env)); [exact Hin|].
    destruct (find (conform (c :: comNames)) (typed env)) as [answer|];
      [destruct (js_index (c :: comNames) (answer - 1))|];
      cbn [fst]; apply in_or_app; left; exact Hin.
  - intros -> ->.
    assert (Hok : conform (c :: comNames) (Z.of_nat (S i)) = true).
    { unfold conform. apply andb_true_iff. split.
      - apply Z.ltb_lt. lia.
      - apply Z.leb_le. lia. }
    cbn [find]. rewrite Hok.
    unfold js_index.
    replace (Z.of_nat (S i) - 1)%Z with (Z.of_nat i) by lia.
    destruct (Z.of_nat i <? 0)%Z eqn:Hneg; [apply Z.ltb_lt in Hneg; lia|].
    rewrite Nat2Z.id, Hnth. reflexivity.
Qed.

(** The object the module calls back with. *)
Lemma module_exports_result (env : Startup) :
  snd (module_exports use_external_arduino trim env) =
    match snd (detect_platform use_external_arduino env) with
    | None => None
    | Some whatToUse =>
        match snd (choose_port trim whatToUse env) with
        | None => None
        | Some _ => Some (transport_type whatToUse use_external_arduino)
        end
    end.
Proof.
  unfold module_exports.
  destruct (detect_platform use_external_arduino env) as [shown [whatToUse|]];
    [|reflexivity].
  cbn [snd].
  pose proof (choose_port_board whatToUse env) as Hboard.
  destruct (choose_port trim whatToUse env) as [chosen [b|]]; [|reflexivity].
  destruct (Hboard b eq_refl) as (Hplat & _ & _). simpl in *.
  unfold rf433mhz_constructor. rewrite Hplat.
  destruct (transport_type whatToUse use_external_arduino); reflexivity.
Qed.

Lemma detect_platform_rpi (env : Startup) (whatToUse : string) :
  snd (detect_platform use_external_arduino env) = Some whatToUse ->
  (whatToUse = "rpi"
   /\ process_platform env = "linux"
   /\ exists data, os_release env = inr data
                   /\ String.index 0 "ID=raspbian" data <> None)
  \/ (whatToUse = "arduino"
      /\ ~ (process_platform env = "linux"
            /\ exists data, os_release env = inr data
                            /\ String.index 0 "ID=raspbian" data <> None)).
Proof.
  unfold detect_platform.
  destruct (String.eqb_spec (process_platform env) "win32") as [Hw|_].
  { intros [= <-]. right. split; [reflexivity|]. rewrite Hw. intros [? _]. discriminate. }
  destruct (String.eqb_spec (process_platform env) "darwin") as [Hd|_].
  { intros [= <-]. right. split; [reflexivity|]. rewrite Hd. intros [? _]. discriminate. }
  destruct (String.eqb_spec (process_platform env) "linux") as [Hl|_];
    [|discriminate].
  destruct (os_release env) as [err|data]; [discriminate|].
  destruct (String.index 0 "ID=raspbian" data) as [n|] eqn:Hidx; intros [= <-].
  - left. repeat split; trivial. exists data. split; [reflexivity|]. congruence.
  - right. split; [reflexivity|]. intros (_ & data' & [= <-] & Hyes). congruence.
Qed.

(** X11: the transport is of type ['rpi'] exactly when the process runs on
    linux, [/etc/os-release] could be read and holds [ID=raspbian], no
    external Arduino is configured, and a serial port was chosen all the
    same: the choice of a port is asked for on every platform. *)
Theorem rpi_transport_iff (env : Startup) :
  snd (module_exports use_external_arduino trim env) = Some rpi
  <-> process_platform env = "linux"
      /\ (exists data, os_release env = inr data
                       /\ String.index 0 "ID=raspbian" data <> None)
      /\ use_external_arduino = false
      /\ snd (choose_port trim "rpi" env) <> None.
Proof.
  rewrite module_exports_result.
  destruct (snd (detect_platform use_external_arduino env)) as [whatToUse|] eqn:Hdet.
  - destruct (detect_platform_rpi env whatToUse Hdet)
      as [(-> & Hlinux & Hrasp)|(-> & Hnot)].
    + destruct (snd (choose_port trim "rpi" env)) as [b|].
      * unfold transport_type. simpl.
        destruct use_external_arduino; simpl; split.
        -- discriminate.
        -- intros (_ & _ & ? & _). discriminate.
        -- intros _. repeat split; trivial. discriminate.
        -- reflexivity.
      * split; [discriminate|]. intros (_ & _ & _ & Hnone). now destruct Hnone.
    + split.
      * destruct (snd (choose_port trim "arduino" env)); discriminate.
      * intros (Hlinux & Hrasp & _). destruct Hnot. auto.
  - split; [discriminate|]. intros (Hlinux & (data & Hos & Hidx) & _).
    exfalso. revert Hdet. unfold detect_platform. rewrite Hlinux, Hos. simpl.
    destruct (String.index 0 "ID=raspbian" data); [discriminate|congruence].
Qed.

Lemma detect_platform_prints (p : action -> bool) (env : Startup) :
  (forall e, p (Out e) = false) ->
  filter p (fst (detect_platform use_external_arduino env)) = [].
Proof.
  intros Hout. unfold detect_platform, print_colored_text, say.
  repeat match goal with
         | |- context [if ?c then _ else _] => destruct c
         | |- context [match os_release env with _ => _ end] =>
             destruct (os_release env)
         | |- context [match String.index ?a ?b ?c with _ => _ end] =>
             destruct (String.index a b c)
         end; simpl; rewrite ?Hout; reflexivity.
Qed.

(** The module does nothing of what only the start does. *)
Lemma module_exports_actions (p : action -> bool) (env : Startup) :
  (forall e, p (Out e) = false) -> p ListPorts = false -> p PromptGet = false ->
  (forall e, p (Uncaught e) = false) ->
  (forall name, p (NewSerialPort name) = false) -> p RequireRpi433 = false ->
  filter p (fst (module_exports use_external_arduino trim env)) = [].
Proof.
  intros Hout Hlist Hprompt Hthrow Hnew Hrpi. unfold module_exports.
  pose proof (detect_platform_prints p env Hout) as Hshown.
  destruct (detect_platform use_external_arduino env) as [shown [whatToUse|]];
    [|exact Hshown].
  pose proof (choose_port_actions p whatToUse env Hout Hlist Hprompt Hthrow)
    as Hchosen.
  destruct (choose_port trim whatToUse env) as [chosen [b|]]; simpl in *.
  - unfold rf433mhz_constructor.
    destruct (transport_type (platform b) use_external_arduino); simpl;
      rewrite !filter_app, Hshown, Hchosen; simpl; rewrite ?Hnew, ?Hrpi;
      reflexivity.
  - now rewrite filter_app, Hshown, Hchosen.
Qed.

(** Neither the choice of the port nor the constructor throws. *)
Lemma module_exports_never_throws (env : Startup) :
  filter is_uncaught (fst (module_exports use_external_arduino trim env)) = [].
Proof.
  unfold module_exports.
  pose proof (detect_platform_prints is_uncaught env (fun _ => eq_refl)) as Hshown.
  destruct (detect_platform use_external_arduino env) as [shown [whatToUse|]];
    [|exact Hshown].
  pose proof (choose_port_never_throws whatToUse env) as Hchosen.
  destruct (choose_port trim whatToUse env) as [chosen [b|]]; simpl in *.
  - unfold rf433mhz_constructor.
    destruct (transport_type (platform b) use_external_arduino); simpl;
      rewrite !filter_app, Hshown, Hchosen; reflexivity.
  - now rewrite filter_app, Hshown, Hchosen.
Qed.

(** X12: with no serial port at all the module never calls back, on any
    platform, the Raspberry Pi included although its transport uses none.
    The start then stops at the [platform] step: [rf433mhz] stays undefined,
    the datastores are not initialised and nothing listens. *)
Theorem no_ports_no_start (env : Startup) :
  ports env = [] ->
  snd (module_exports use_external_arduino trim env) = None
  /\ snd (startup DEBUG use_external_arduino trim env) = mkApp None false
  /\ ~ In InitDB (fst (startup DEBUG use_external_arduino trim env)).
Proof.
  intros Hports.
  assert (Hnone : snd (module_exports use_external_arduino trim env) = None).
  { rewrite module_exports_result.
    destruct (snd (detect_platform use_external_arduino env)); [|reflexivity].
    unfold choose_port. now rewrite Hports. }
  split; [exact Hnone|].
  assert (Hquiet : filter (fun a => match a with InitDB => true | _ => false end)
                          (fst (module_exports use_external_arduino trim env)) = [])
    by (apply module_exports_actions; reflexivity).
  unfold startup, series, ascii_logo, platform_task.
  destruct (module_exports use_external_arduino trim env) as [done rf].
  simpl in Hnone, Hquiet. subst rf.
  destruct (logo env); simpl; (split; [reflexivity|]).
  - intros [H|[H|[H|Hin]]]; try discriminate.
    assert (Hf : In InitDB (filter (fun a => match a with InitDB => true | _ => false end) done))
      by (apply filter_In; auto).
    rewrite Hquiet in Hf. destruct Hf.
  - intros [H|[]]. discriminate.
Qed.

(** The variable [rf433mhz] after the start. *)
Lemma startup_rf433mhz (env : Startup) :
  rf433mhz (snd (startup DEBUG use_external_arduino trim env)) =
    match logo env with
    | Some _ => snd (module_exports use_external_arduino trim env)
    | None => None
    end.
Proof.
  unfold startup, series, ascii_logo, platform_task, init_db_task, init_rf,
    server_task, rf433mhz_openSerialPort.
  destruct (logo env); [|reflexivity].
  destruct (module_exports use_external_arduino trim env) as [done [[|]|]];
    simpl; [| |reflexivity];
    destruct (init_db env); simpl; try reflexivity;
    destruct (open_error env); simpl; try reflexivity;
    destruct (server env); reflexivity.
Qed.


(** X14: on the rpi transport the start never gets past [init_rf]:
    [openSerialPort] starts the sniffer and does not call [onOpen], so the
    server is not required and no listener at all is registered, neither for
    RF codes nor for cards nor for live clients. *)
Theorem rpi_never_listens (env : Startup) :
  snd (module_exports use_external_arduino trim env) = Some rpi ->
  listening (snd (startup DEBUG use_external_arduino trim env)) = false
  /\ filter is_listening (fst (startup DEBUG use_external_arduino trim env)) = []
  /\ ~ In (Require "./components/server.js")
          (fst (startup DEBUG use_external_arduino trim env))
  /\ (logo env <> None -> (exists u, init_db env = Resolved u) ->
      exists before,
        fst (startup DEBUG use_external_arduino trim env) = before ++ [Sniffer]).
Proof.
  intros Hrpi.
  assert (Hquiet : forall p : action -> bool,
            (forall e, p (Out e) = false) -> p ListPorts = false ->
            p PromptGet = false -> (forall e, p (Uncaught e) = false) ->
            (forall name, p (NewSerialPort name) = false) ->
            p RequireRpi433 = false ->
            filter p (fst (module_exports use_external_arduino trim env)) = [])
    by (intros; now apply module_exports_actions).
  pose proof (Hquiet is_listening (fun _ => eq_refl) eq_refl eq_refl
                (fun _ => eq_refl) (fun _ => eq_refl) eq_refl) as Hl.
  pose (is_server := fun a => match a with
                              | Require m => String.eqb m "./components/server.js"
                              | _ => false
                              end).
  pose proof (Hquiet is_server (fun _ => eq_refl) eq_refl eq_refl
                (fun _ => eq_refl) (fun _ => eq_refl) eq_refl) as Hs.
  assert (Hnot : forall t, filter is_server t = [] ->
                   ~ In (Require "./components/server.js") t).
  { intros t Ht Hin.
    assert (Hf : In (Require "./components/server.js") (filter is_server t))
      by (apply filter_In; split; [exact Hin|reflexivity]).
    rewrite Ht in Hf. destruct Hf. }
  unfold startup, series, ascii_logo, platform_task, init_db_task, init_rf,
    server_task, rf433mhz_openSerialPort.
  destruct (module_exports use_external_arduino trim env) as [done rf].
  simpl in Hrpi, Hl, Hs. subst rf.
  destruct (logo env) as [text|]; simpl.
  - destruct (init_db env) as [u|err]; simpl.
    + repeat split.
      * rewrite filter_app, Hl. reflexivity.
      * intros [H|[H|[H|Hin]]]; try discriminate.
        revert Hin. apply Hnot. rewrite filter_app, Hs. reflexivity.
      * intros _ _.
        exists (Require "./components/ascii_logo.js" :: say [LS text]
                  :: say [LS "Debug Mode:"; LB DEBUG] :: done ++ [InitDB]).
        simpl. now rewrite <- app_assoc.
    + repeat split.
      * rewrite filter_app, Hl. reflexivity.
      * intros [H|[H|[H|Hin]]]; try discriminate.
        revert Hin. apply Hnot. rewrite filter_app, Hs. reflexivity.
      * intros _ (u & H). discriminate.
  - repeat split.
    + intros [H|[]]. discriminate.
    + intros H. now destruct H.
Qed.

(** X15: a serial port that fails to open is fatal.  The error is printed
    and thrown from the callback of [serial.open]: it is the last thing the
    start does, [onOpen] is not called, no timer is set and nothing
    listens. *)
Theorem open_failure_is_fatal (env : Startup) (e : Err) :
  logo env <> None ->
  snd (module_exports use_external_arduino trim env) = Some arduino ->
  (exists u, init_db env = Resolved u) ->
  open_error env = Some e ->
  (exists before,
     fst (startup DEBUG use_external_arduino trim env) =
       before ++ [SerialOpen; say [LS "failed to open: "; LErr (Some e)];
                  Uncaught e]
     /\ filter is_uncaught before = [])
  /\ snd (startup DEBUG use_external_arduino trim env) = mkApp (Some arduino) false.
Proof.
  intros Hlogo Harduino (u & Hdb) Hopen.
  pose proof (module_exports_never_throws env) as Hthrows.
  unfold startup, series, ascii_logo, platform_task, init_db_task, init_rf,
    server_task, rf433mhz_openSerialPort.
  destruct (module_exports use_external_arduino trim env) as [done rf].
  simpl in Harduino, Hthrows. subst rf.
  destruct (logo env) as [text|]; [|now destruct Hlogo].
  rewrite Hdb, Hopen. simpl. split; [|reflexivity].
  exists (Require "./components/ascii_logo.js" :: say [LS text]
            :: say [LS "Debug Mode:"; LB DEBUG] :: done ++ [InitDB]).
  split.
  - simpl. now rewrite <- app_assoc.
  - simpl. rewrite filter_app, Hthrows. reflexivity.
Qed.

(** X16: Ctrl-C after the start.  The SIGINT handler ends the process
    unless the start made a transport of type ['rpi']: then [close] never
    calls back and the process goes on. *)
Theorem sigint_after_startup {W : Type} {collab : Collaborators W}
    (env : Startup) (w : W) :
  In ProcessExit
     (fst (on_SIGINT (rf433mhz (snd (startup DEBUG use_external_arduino trim env))) w))
  <-> ~ (logo env <> None
         /\ snd (module_exports use_external_arduino trim env) = Some rpi).
Proof.
  rewrite startup_rf433mhz.
  destruct (logo env) as [text|].
  - destruct (snd (module_exports use_external_arduino trim env)) as [[|]|].
    + simpl. split.
      * intros [H|[]]. discriminate.
      * intros H. destruct H. split; [discriminate|reflexivity].
    + unfold on_SIGINT, rf433mhz_close.
      destruct (serial_close w) as [err w']. simpl. split.
      * intros _ (_ & H). discriminate.
      * intros _. right. right. right. now left.
    + simpl. split.
      * intros _ (_ & H). discriminate.
      * intros _. right. now left.
  - simpl. split.
    + intros _ (H & _). now destruct H.
    + intros _. right. now left.
Qed.

End PlatformFacts.

(** * The further theorems at concrete inputs *)

Lemma outcome_after_store_witness :
  In (PutCodeInDB (event 555 "received"))
     [PutCodeInDB (event 555 "received"); IsCodeAvailable (Some (JNum 555));
      AlarmTriggered (Some "A") "alarm"]
  /\ In (IsCodeAvailable (code_of (event 555 "received")))
        [PutCodeInDB (event 555 "received"); IsCodeAvailable (Some (JNum 555));
         AlarmTriggered (Some "A") "alarm"].
Proof.
  exact (@outcome_after_store World model false (event 555 "received")
           (home true)
           [PutCodeInDB (event 555 "received");
            IsCodeAvailable (Some (JNum 555));
            AlarmTriggered (Some "A") "alarm"]
           [IoEmit "uiTriggerAlarm" (PCard (card_A true));
            AlarmAdviseAll (card_A true)]
           (WebHookCodeDetected (event 555 "received")) eq_refl eq_refl).
Defined.

Lemma upsert_failure_stops_witness :
  filter silent
    (effects (@on_codeData bool Outage.down true (event 1 "received") false))
  = [PutCodeInDB (event 1 "received")].
Proof.
  exact (proj1 (@upsert_failure_stops bool Outage.down true
                  (event 1 "received") false false "EIO" eq_refl eq_refl)).
Defined.

Lemma lookup_failure_stops_witness :
  filter silent
    (effects (@on_codeData bool Outage.down true (event 1 "received") true))
  = [PutCodeInDB (event 1 "received"); IsCodeAvailable (Some (JNum 1))].
Proof.
  exact (proj1 (@lookup_failure_stops bool Outage.down true
                  (event 1 "received") true true true "stored" "EIO"
                  eq_refl eq_refl eq_refl)).
Defined.

Lemma unavailable_looks_up_alarm_witness :
  filter silent (effects (on_codeData true (event 111 "received") (home false)))
  = [PutCodeInDB (event 111 "received"); IsCodeAvailable (Some (JNum 111));
     AlarmTriggered (Some "S") "alarm";
     WebHookCodeDetected (event 111 "received")].
Proof.
  destruct (@unavailable_looks_up_alarm World model true
              (event 111 "received") (home false) _ _ _ _ _ _
              eq_refl eq_refl eq_refl eq_refl eq_refl) as (_ & _ & Hnone).
  exact (Hnone eq_refl).
Defined.

Lemma idle_lines_change_nothing_witness :
  snd (deliver (engine true parse_literal arduino) ["null"; "true"; "{code:"]
               (home false))
  = home false.
Proof.
  refine (proj1 (@idle_lines_change_nothing World model true parse_literal
                   arduino ["null"; "true"; "{code:"] (home false) _)).
  intros line v [<-|[<-|[<-|[]]]] Hparse; vm_compute in Hparse;
    try discriminate; injection Hparse as <-; reflexivity.
Defined.

Lemma non_object_line_witness :
  engine true parse_literal arduino "null" (home false)
  = ([ConsoleLog [LS "RFcode received: "; LJ JNull];
      ConsoleLog [LS "Error parsing this JSON: "; LS "null"]], home false).
Proof.
  refine (@non_object_line World model true parse_literal "null" JNull
            (home false) eq_refl _).
  intros fields. discriminate.
Defined.

Lemma choose_port_picks_listed_witness :
  filter is_uncaught
    (fst (choose_port_numbers (fun s => s) "arduino"
            (Some ["/dev/cu.usb1"; "/dev/cu.usb2"]) None
            [QArith_base.Qmake 3 2] "canceled"))
  <> []
  /\ In "/dev/cu.usb2" ["/dev/cu.usb1"; "/dev/cu.usb2"].
Proof.
  split.
  - apply (proj2 (proj1 (choose_port_picks_listed (fun s => s) "arduino"
                           (Some ["/dev/cu.usb1"; "/dev/cu.usb2"]) None
                           [QArith_base.Qmake 3 2] "canceled"))).
    right. exists ["/dev/cu.usb1"; "/dev/cu.usb2"], (QArith_base.Qmake 3 2).
    repeat split; discriminate || reflexivity.
  - destruct (proj1 (proj2 (choose_port_picks_listed (fun s => s) "arduino"
                              (Some ["/dev/cu.usb1"; "/dev/cu.usb2"]) None
                              [QArith_base.Qmake 5 1; QArith_base.Qmake 2 1]
                              "canceled"))
                (mkBoard "arduino" "/dev/cu.usb2") eq_refl)
      as (_ & comNames & [= <-] & _ & Hin).
    exact Hin.
Defined.

Lemma number_selects_port_witness :
  snd (choose_port (fun s => s) "arduino"
         (mkStartup None "darwin" (inl "ENOENT") ["/dev/cu.usb1"; "/dev/cu.usb2"]
                    None [2%Z; 7%Z] "canceled" (Resolved tt) None true))
  = Some (mkBoard "arduino" "/dev/cu.usb2").
Proof.
  exact (proj2 (number_selects_port (fun s => s) "arduino"
                  (mkStartup None "darwin" (inl "ENOENT")
                             ["/dev/cu.usb1"; "/dev/cu.usb2"]
                             None [2%Z; 7%Z] "canceled" (Resolved tt) None true)
                  1 "/dev/cu.usb2" [7%Z] eq_refl) eq_refl eq_refl).
Defined.

Lemma rpi_transport_iff_witness :
  snd (module_exports false (fun s => s) on_pi) = Some rpi.
Proof.
  apply (proj2 (rpi_transport_iff false (fun s => s) on_pi)).
  repeat split.
  - exists "NAME=Raspbian ID=raspbian". split; [reflexivity|discriminate].
  - discriminate.
Defined.

Lemma no_ports_no_start_witness :
  snd (startup true false (fun s => s)
         (mkStartup (Some "iot-433mhz") "linux" (inr "ID=raspbian") [] None []
                    "canceled" (Resolved tt) None true))
  = mkApp None false.
Proof.
  exact (proj1 (proj2 (no_ports_no_start true false (fun s => s)
                         (mkStartup (Some "iot-433mhz") "linux"
                                    (inr "ID=raspbian") [] None []
                                    "canceled" (Resolved tt) None true)
                         eq_refl))).
Defined.


Lemma rpi_never_listens_witness :
  listening (snd (startup true false (fun s => s) on_pi)) = false
  /\ filter is_listening (fst (startup true false (fun s => s) on_pi)) = [].
Proof.
  destruct (rpi_never_listens true false (fun s => s) on_pi eq_refl)
    as (Hoff & Hnone & _).
  split; assumption.
Defined.

Lemma open_failure_is_fatal_witness :
  snd (startup false false (fun s => s) (on_desktop (Some "EBUSY")))
  = mkApp (Some arduino) false.
Proof.
  refine (proj2 (open_failure_is_fatal false false (fun s => s)
                   (on_desktop (Some "EBUSY")) "EBUSY" _ eq_refl _ eq_refl)).
  - discriminate.
  - now exists tt.
Defined.

Lemma sigint_after_startup_witness :
  ~ In ProcessExit
       (fst (on_SIGINT (rf433mhz (snd (startup true false (fun s => s) on_pi)))
                       (home false))).
Proof.
  intros Hexit.
  apply (proj1 (@sigint_after_startup true false (fun s => s) World model
                  on_pi (home false)) Hexit).
  split; [discriminate|reflexivity].
Defined.
